(** * Paper-trading simulator: trade lifecycle and capital ledger

    A shallow embedding of [simulator.py] (classes [Trade] and [Portfolio])
    and of the persistence module [db.py].  Python floats are IEEE-754
    binary64 values and are modelled by Rocq's primitive floats, whose
    operations are the same correctly rounded ones; Python integers are [Z];
    Python strings are [string]; [None]-able fields are [option]. *)

From Stdlib Require Import ZArith Floats String List Bool Lia.
From Stdlib Require Import Orders Sorted Permutation Mergesort.
Import ListNotations.

#[local] Set Warnings "-inexact-float".
#[local] Open Scope Z_scope.

(** ** Python's numeric built-ins on floats *)

Module Py.

(** [round_half_even p q] is the integer nearest to the rational [p / q]
    (for [q > 0]), ties going to the even neighbour. *)
Definition round_half_even (p q : Z) : Z :=
  let d := p / q in
  match 2 * (p mod q) ?= q with
  | Lt => d
  | Gt => d + 1
  | Eq => if Z.even d then d else d + 1
  end.

(** The digits [float.__round__] obtains from the float-to-decimal
    conversion in fixed mode: the magnitude [m * 2^e] scaled by
    [10^ndigits] and rounded to an integer on its exact value. *)
Definition decimal_digits (m : positive) (e ndigits : Z) : Z :=
  round_half_even (Zpos m * 2 ^ Z.max e 0 * 10 ^ Z.max ndigits 0)
                  (2 ^ Z.max (- e) 0 * 10 ^ Z.max (- ndigits) 0).

(** The binary64 value nearest to the positive rational [n / d], ties to
    even: the quotient is placed in its binade [2^l <= n/d < 2^(l+1)], its
    exponent is [l - 52] (at least -1074, where the subnormal numbers
    start), the mantissa is the quotient scaled by that exponent and rounded
    to an integer, a mantissa rounded up to [2^53] moves to the next binade,
    and an exponent above 971 overflows to infinity. *)
Definition nearest (s : bool) (n d : positive) : spec_float :=
  let sh := Z.log2 (Zpos d) + 1 in
  let l := Z.log2 (Zpos n * 2 ^ sh / Zpos d) - sh in
  let e := Z.max (l - 52) (-1074) in
  let m := round_half_even (Zpos n * 2 ^ Z.max (- e) 0) (Zpos d * 2 ^ Z.max e 0) in
  let '(m, e) := if m =? 2 ^ 53 then (2 ^ 52, e + 1) else (m, e) in
  match m with
  | Zpos p => if e <=? 971 then S754_finite s p e else S754_infinity s
  | _ => S754_zero s
  end.

(** The decimal-to-float conversion that follows: the binary64 value
    nearest to [(-1)^s * n * 10^(-ndigits)], ties to even. *)
Definition strtod (s : bool) (n ndigits : Z) : float :=
  match (n * 10 ^ Z.max (- ndigits) 0)%Z, (10 ^ Z.max ndigits 0)%Z with
  | Zpos p, Zpos q => SF2Prim (nearest s p q)
  | _, _ => SF2Prim (S754_zero s)
  end.

(** [round(x, ndigits)] on a float: NaN, the infinities and the zeros round
    to themselves; a finite value goes to decimal and back.  With
    [ndigits >= 0], as everywhere in the simulator, the result is never
    larger in magnitude than the next integer, so the conversion back cannot
    overflow and Python raises no [OverflowError]. *)
Definition round (x : float) (ndigits : Z) : float :=
  match Prim2SF x with
  | S754_finite s m e => strtod s (decimal_digits m e ndigits) ndigits
  | _ => x
  end.

End Py.

(** The quotient [n / d] scaled by [2^(-e)], as a fraction of integers. *)
Definition num (n e : Z) : Z := n * 2 ^ Z.max (- e) 0.
Definition den (d e : Z) : Z := d * 2 ^ Z.max e 0.

(** Whether [nearest] and the IEEE division of the two integers agree. *)
Definition agrees_with_division (n d : positive) : bool :=
  match Py.nearest false n d,
        SFdiv prec emax (S754_finite false n 0) (S754_finite false d 0) with
  | S754_zero a, S754_zero b => Bool.eqb a b
  | S754_infinity a, S754_infinity b => Bool.eqb a b
  | S754_finite a m e, S754_finite b m' e' => Bool.eqb a b && (m =? m')%positive && (e =? e')
  | _, _ => false
  end.

(** A Python number that is an [int] or a [float]: [sum] over no items,
    [max(..., default=0)] and [round] of an [int] yield the [int] 0 where
    the other branch yields a [float]. *)
Module PyNum.

Inductive t := Int (z : Z) | Float (x : float).

(** [float(n)]: the nearest binary64 value to an integer. *)
Definition float_of_int (z : Z) : float :=
  SF2Prim (binary_normalize prec emax z 0 false).

Definition to_float (a : t) : float :=
  match a with Int z => float_of_int z | Float x => x end.

(** [a + b]: integer addition on two [int]s, float addition otherwise. *)
Definition add (a b : t) : t :=
  match a, b with
  | Int x, Int y => Int (x + y)
  | _, _ => Float (to_float a + to_float b)
  end.

(** [sum(items)] for float items: the start value [0] plus the items, left
    to right. *)
Definition sum (items : list float) : t :=
  fold_left (fun acc x => add acc (Float x)) items (Int 0).

(** [round(a, ndigits)] with [ndigits >= 0]: an [int] is returned as it is. *)
Definition round (a : t) (ndigits : Z) : t :=
  match a with Int z => Int z | Float x => Float (Py.round x ndigits) end.

(** [a / b]: true division; [None] stands for [ZeroDivisionError]. *)
Definition div (a b : t) : option float :=
  if (to_float b =? 0)%float then None else Some (to_float a / to_float b)%float.

(** [max(items, default=d)]: the first item, replaced by each later item
    that compares greater. *)
Definition max (items : list float) (default : t) : t :=
  match items with
  | [] => default
  | x :: rest => Float (fold_left (fun m y => if (m <? y)%float then y else m) rest x)
  end.

(** [min(items, default=d)]: the first item, replaced by each later item
    that compares less. *)
Definition min (items : list float) (default : t) : t :=
  match items with
  | [] => default
  | x :: rest => Float (fold_left (fun m y => if (y <? m)%float then y else m) rest x)
  end.

(** Truth value of an optional float: [None] and both zeros are false, every
    other float (NaN included) is true. *)
Definition truthy (x : option float) : bool :=
  match x with None => false | Some v => negb (v =? 0)%float end.

End PyNum.

(** Quotients on which [nearest] is compared with the IEEE division: ties,
    carries into the next binade, subnormal results and overflow among
    them. *)
Definition division_samples : list (positive * positive) :=
  [ (1, 10); (1, 3); (2, 3); (26750, 10000); (1250, 10000); (3750, 10000);
    (1000001, 10000); (1066667, 10000); (50000, 10000); (1, 10000);
    (9007199254740993, 1); (9007199254740995, 1); (18014398509481983, 1);
    (18014398509481982, 2); (36028797018963967, 4); (4503599627370497, 2);
    (1234567890123457, 10000); (99999999999999999999, 10000);
    (1, Pos.pow 2 1074); (1, Pos.pow 2 1075); (3, Pos.pow 2 1075); (3, Pos.pow 2 1076);
    (Pos.pow 2 52 + 1, Pos.pow 2 1075); (Pos.pow 2 53 - 1, Pos.pow 2 1075);
    (Pos.pow 2 1024, 1); (Pos.pow 2 1024 - Pos.pow 2 970, 1);
    (Pos.pow 2 1024 - Pos.pow 2 970 - 1, 1); (Pos.pow 10 308, 7); (7, Pos.pow 10 320) ]%positive.

(** ** simulator.py: constants *)

Definition INITIAL_CAPITAL : float := 100.0.
Definition TRADE_PCT : float := 0.02.
Definition MIN_CONFIDENCE : Z := 65.
Definition ENTRY_AFTER_N : Z := 4.

(** ** simulator.py: class Trade *)

Module Trade.

Record t := make {
  id : Z;
  market : string;
  direction : string;
  entry_price : float;
  shares : float;
  bet_size : float;
  entry_time : string;
  exit_price : option float;
  pnl : option float;
  status : string
}.

Definition mark_to_market (self : t) (current_price : float) : float :=
  Py.round (shares self * current_price) 4.

Definition unrealized_pnl (self : t) (current_price : float) : float :=
  Py.round (mark_to_market self current_price - bet_size self) 4.

(** [close] returns the realized P&L together with the mutated object. *)
Definition close (self : t) (won : bool) (exit_price' : float) : float * t :=
  let pnl' :=
    if won then
      let proceeds := (shares self * 1.0)%float in
      Py.round (proceeds - bet_size self) 4
    else Py.round (- bet_size self) 4 in
  (pnl',
   make (id self) (market self) (direction self) (entry_price self)
        (shares self) (bet_size self) (entry_time self)
        (Some exit_price') (Some pnl') (if won then "WIN" else "LOSS")).

(** The dictionary has the fields of the object, [shares] rounded. *)
Definition to_dict (self : t) : t :=
  make (id self) (market self) (direction self) (entry_price self)
       (Py.round (shares self) 4) (bet_size self) (entry_time self)
       (exit_price self) (pnl self) (status self).

(** [self.status = s], the in-place assignment of cancellation. *)
Definition set_status (self : t) (s : string) : t :=
  make (id self) (market self) (direction self) (entry_price self)
       (shares self) (bet_size self) (entry_time self)
       (exit_price self) (pnl self) s.

End Trade.

(** ** db.py: the SQLite store

    The connection is the module's global state.  Table [trades] has [id]
    as its primary key, so it holds at most one row per id; table
    [portfolio_state] holds at most the single row [id = 1].  A row of
    [trades] carries the ten columns [load_state] reads back into a [Trade];
    the [pnl_history] column holds the JSON text of a list of floats, which
    [json.loads] turns back into the list [json.dumps] was given. *)

Module TradeById <: TotalLeBool.
Definition t := Trade.t.
Definition leb (a b : t) : bool := Trade.id a <=? Trade.id b.
Theorem leb_total : forall a b, leb a b = true \/ leb b a = true.
Proof. intros a b; unfold leb; rewrite !Z.leb_le; lia. Qed.
End TradeById.

Module OrderById := Sort TradeById.

Module Db.

Record snapshot := {
  row_capital : float;
  row_initial_capital : float;
  row_pnl_history : list float;
  row_trade_counter : Z
}.

Record conn := {
  trades : list Trade.t;
  portfolio_state : option snapshot
}.

(** [init_db]: both tables are created when absent and kept otherwise. *)
Definition empty : conn := {| trades := []; portfolio_state := None |}.




(** The writes a [Portfolio] issues, in the order it issues them. *)
Inductive call :=
| SaveTrade (trade : Trade.t)
| SavePortfolioState (capital initial_capital : float)
                     (pnl_history : list float) (trade_counter : Z).






End Db.

(** ** simulator.py: class Portfolio *)

(** The signal dictionary [{"label": ..., "confidence": ...}]; the
    confidence is the integer percentage the signal source computes. *)
Module Signal.
Record t := make { label : string; confidence : Z }.
End Signal.

(** The streak dictionary [{"label": ..., "count": ...}]. *)
Module Streak.
Record t := make { label : option string; count : Z }.
Definition empty : t := make None 0.
End Streak.

(** [sub in s] on strings. *)
Definition contains (sub s : string) : bool :=
  match String.index 0 sub s with Some _ => true | None => false end.

(** [l[-n:]]: the last [n] items, or all of them when there are fewer. *)
Definition last_items {A : Type} (n : nat) (l : list A) : list A :=
  skipn (length l - n) l.

Module Portfolio.

Record t := make {
  initial_capital : float;
  capital : float;
  trade_pct : float;
  active_trade : option Trade.t;
  closed_trades : list Trade.t;
  pnl_history : list float;
  _trade_counter : Z;
  _db : bool;  (* whether a persistence module was passed in *)
  _signal_streak : Streak.t
}.

(** What a method call leaves behind: the value it returns, the object after
    the call, and the writes it sent to the persistence module. *)
Record outcome (A : Type) := done {
  returned : A;
  self_after : t;
  db_calls : list Db.call
}.
Arguments done {A}.
Arguments returned {A}.
Arguments self_after {A}.
Arguments db_calls {A}.

Definition init (initial_capital trade_pct : float) (db : bool) : t :=
  make initial_capital initial_capital trade_pct None [] [0.0%float] 0 db Streak.empty.


(** [self._signal_streak = streak] *)
Definition set_streak (self : t) (streak : Streak.t) : t :=
  make (initial_capital self) (capital self) (trade_pct self)
       (active_trade self) (closed_trades self) (pnl_history self)
       (_trade_counter self) (_db self) streak.

Definition is_directional (label : string) : bool :=
  existsb (String.eqb label) ["UP"; "DOWN"; "STRONG UP"; "STRONG DOWN"]%string.

(** The streak after a directional signal normalized to [direction]. *)
Definition track (streak : Streak.t) (direction : string) : Streak.t :=
  match Streak.label streak with
  | Some l =>
      if (l =? direction)%string
      then Streak.make (Streak.label streak) (Streak.count streak + 1)
      else Streak.make (Some direction) 1
  | None => Streak.make (Some direction) 1
  end.

(** [now] is the [HH:MM:SS] text of the clock at the call.  The division
    is reached only past the price guard, which no zero price passes. *)
Definition consider_entry (self : t) (signal : Signal.t)
    (market_question : string) (up_price down_price : float) (now : string)
  : outcome bool :=
  match active_trade self with
  | Some _ => done false self []
  | None =>
    if (capital self <? 1.0)%float then done false self [] else
    let label := Signal.label signal in
    let conf := Signal.confidence signal in
    if negb (is_directional label)
    then done false (set_streak self Streak.empty) [] else
    let direction := if contains "UP" label then "UP"%string else "DOWN"%string in
    let self1 := set_streak self (track (_signal_streak self) direction) in
    if Streak.count (_signal_streak self1) <? ENTRY_AFTER_N then done false self1 [] else
    if conf <? MIN_CONFIDENCE then done false self1 [] else
    let bet_size := Py.round (capital self1 * trade_pct self1) 2 in
    let entry_price := if (direction =? "UP")%string then up_price else down_price in
    if (entry_price <=? 0.01)%float then done false self1 [] else
    let shares := Py.round (bet_size / entry_price) 4 in
    let counter := _trade_counter self1 + 1 in
    let trade := Trade.make counter market_question direction entry_price
                            shares bet_size now None None "OPEN" in
    done true
         (make (initial_capital self1) (capital self1) (trade_pct self1)
               (Some trade) (closed_trades self1) (pnl_history self1)
               counter (_db self1) Streak.empty)
         (if _db self1 then [Db.SaveTrade trade] else [])
  end.

Definition current_price_for_trade (self : t) (up_price down_price : float) : float :=
  match active_trade self with
  | None => 0.0%float
  | Some trade => if (Trade.direction trade =? "UP")%string then up_price else down_price
  end.

Definition get_unrealized (self : t) (up_price down_price : float) : float :=
  match active_trade self with
  | None => 0.0%float
  | Some trade =>
      Trade.unrealized_pnl trade (current_price_for_trade self up_price down_price)
  end.

Definition close_trade (self : t) (up_price down_price : float)
    (force_winner : option bool) : outcome (option Trade.t) :=
  match active_trade self with
  | None => done None self []
  | Some trade =>
    let won :=
      match force_winner with
      | Some forced => forced
      | None =>
          if (Trade.direction trade =? "UP")%string
          then (0.5 <=? up_price)%float
          else (0.5 <=? down_price)%float
      end in
    let exit_price := if won then 1.0%float else 0.0%float in
    let '(pnl, trade) := Trade.close trade won exit_price in
    let capital' := Py.round (capital self + Trade.bet_size trade + pnl) 4 in
    let closed := closed_trades self ++ [trade] in
    let total_pnl := Py.round (capital' - initial_capital self) 4 in
    let history := pnl_history self ++ [Py.round total_pnl 4] in
    done (Some trade)
         (make (initial_capital self) capital' (trade_pct self) None closed
               history (_trade_counter self) (_db self) Streak.empty)
         (if _db self
          then [Db.SaveTrade trade;
                Db.SavePortfolioState capital' (initial_capital self) history
                                      (_trade_counter self)]
          else [])
  end.

Definition cancel_active_trade (self : t) : outcome unit :=
  match active_trade self with
  | None => done tt self []
  | Some trade =>
    let trade := Trade.set_status trade "CANCELLED" in
    done tt
         (make (initial_capital self) (capital self) (trade_pct self) None
               (closed_trades self ++ [trade]) (pnl_history self)
               (_trade_counter self) (_db self) (_signal_streak self))
         (if _db self
          then [Db.SaveTrade trade;
                Db.SavePortfolioState (capital self) (initial_capital self)
                                      (pnl_history self) (_trade_counter self)]
          else [])
  end.

(** The live snapshot of the open trade in the report. *)
Record active_view := {
  view_trade : Trade.t;          (* the entries of [to_dict] *)
  view_current_price : float;
  view_mark_to_market : float;
  view_unrealized_pnl : float
}.

(** The dictionary [stats] returns. *)
Record report := {
  r_initial_capital : float;
  r_capital : float;
  r_equity : float;
  r_realized_pnl : PyNum.t;
  r_unrealized_pnl : float;
  r_total_pnl : float;
  r_total_pnl_pct : float;
  r_total_trades : Z;
  r_wins : Z;
  r_losses : Z;
  r_cancelled : Z;
  r_win_rate : float;
  r_best_trade : PyNum.t;
  r_worst_trade : PyNum.t;
  r_avg_pnl : PyNum.t;
  r_pnl_history : list float;
  r_active_trade : option active_view;
  r_trade_log : list Trade.t;
  r_signal_streak : Streak.t
}.

Definition with_status (s : string) (closed : list Trade.t) : list Trade.t :=
  filter (fun t => (Trade.status t =? s)%string) closed.

(** [t.pnl for t in closed if t.pnl is not None] *)
Definition realized_terms (closed : list Trade.t) : list float :=
  flat_map (fun t => match Trade.pnl t with Some v => [v] | None => [] end) closed.

(** [t.pnl for t in closed if t.pnl] *)
Definition extreme_terms (closed : list Trade.t) : list float :=
  flat_map (fun t => if PyNum.truthy (Trade.pnl t)
                     then match Trade.pnl t with Some v => [v] | None => [] end
                     else []) closed.

(** [None] stands for the [ZeroDivisionError] of the percentage when
    [initial_capital] is zero. *)
Definition stats (self : t) (up_price down_price : float) : option report :=
  let closed := closed_trades self in
  let wins := with_status "WIN" closed in
  let losses := with_status "LOSS" closed in
  let n_closed := Z.of_nat (length wins) + Z.of_nat (length losses) in
  let win_rate :=
    if n_closed =? 0 then 0.0%float
    else Py.round (PyNum.float_of_int (Z.of_nat (length wins))
                   / PyNum.float_of_int n_closed * 100) 1 in
  let realized_pnl := PyNum.sum (realized_terms closed) in
  let unrealized_pnl := get_unrealized self up_price down_price in
  let total_pnl :=
    Py.round (PyNum.to_float (PyNum.add realized_pnl (PyNum.Float unrealized_pnl))) 4 in
  let equity :=
    Py.round (capital self
              + match active_trade self with
                | Some t => Trade.bet_size t
                | None => PyNum.float_of_int 0
                end
              + unrealized_pnl) 4 in
  let active :=
    match active_trade self with
    | None => None
    | Some t =>
        let cp := current_price_for_trade self up_price down_price in
        Some {| view_trade := Trade.to_dict t;
                view_current_price := Py.round cp 4;
                view_mark_to_market := Trade.mark_to_market t cp;
                view_unrealized_pnl := Trade.unrealized_pnl t cp |}
    end in
  match PyNum.div (PyNum.Float total_pnl) (PyNum.Float (initial_capital self)) with
  | None => None
  | Some ratio =>
    Some {| r_initial_capital := initial_capital self;
            r_capital := Py.round (capital self) 4;
            r_equity := equity;
            r_realized_pnl := PyNum.round realized_pnl 4;
            r_unrealized_pnl := Py.round unrealized_pnl 4;
            r_total_pnl := total_pnl;
            r_total_pnl_pct := Py.round (ratio * 100) 2;
            r_total_trades := Z.of_nat (length closed);
            r_wins := Z.of_nat (length wins);
            r_losses := Z.of_nat (length losses);
            r_cancelled := Z.of_nat (length (with_status "CANCELLED" closed));
            r_win_rate := win_rate;
            r_best_trade := PyNum.round (PyNum.max (extreme_terms closed) (PyNum.Int 0)) 4;
            r_worst_trade := PyNum.round (PyNum.min (extreme_terms closed) (PyNum.Int 0)) 4;
            r_avg_pnl :=
              if n_closed =? 0 then PyNum.Int 0
              else PyNum.Float
                     (Py.round (PyNum.to_float realized_pnl
                                / PyNum.float_of_int n_closed) 4);
            r_pnl_history := last_items 50 (pnl_history self);
            r_active_trade := active;
            r_trade_log := map Trade.to_dict (rev (last_items 20 closed));
            r_signal_streak := _signal_streak self |}
  end.

End Portfolio.

(** ** The states a portfolio goes through

    A portfolio is built by the constructor and then driven through its
    three mutating methods. *)

Inductive step : Portfolio.t -> Portfolio.t -> Prop :=
| step_consider_entry self signal market_question up_price down_price now :
    step self (Portfolio.self_after
                 (Portfolio.consider_entry self signal market_question
                                           up_price down_price now))
| step_close_trade self up_price down_price force_winner :
    step self (Portfolio.self_after
                 (Portfolio.close_trade self up_price down_price force_winner))
| step_cancel_active_trade self :
    step self (Portfolio.self_after (Portfolio.cancel_active_trade self)).

Inductive reachable : Portfolio.t -> Prop :=
| reachable_init initial_capital trade_pct db :
    reachable (Portfolio.init initial_capital trade_pct db)
| reachable_step self self' :
    reachable self -> step self self' -> reachable self'.

(** Every trade object a portfolio holds. *)
Definition held_trades (self : Portfolio.t) : list Trade.t :=
  match Portfolio.active_trade self with
  | Some trade => [trade]
  | None => []
  end ++ Portfolio.closed_trades self.

Definition is_open (trade : Trade.t) : bool := (Trade.status trade =? "OPEN")%string.

(** The price of the side a trade holds. *)
Definition held_side_price (trade : Trade.t) (up_price down_price : float) : float :=
  if (Trade.direction trade =? "UP")%string then up_price else down_price.

(** The direction a directional label normalizes to. *)
Definition normalize (label : string) : string :=
  if contains "UP" label then "UP"%string else "DOWN"%string.

(** ** Sample states used to exercise the statements *)

Definition up_signal (confidence : Z) : Signal.t := Signal.make "UP" confidence.

(** One polling tick with an UP signal at prices 0.40 / 0.60. *)
Definition tick (confidence : Z) (self : Portfolio.t) : Portfolio.t :=
  Portfolio.self_after
    (Portfolio.consider_entry self (up_signal confidence) "SOL up or down?"
                              0.40 0.60 "12:00:00").

Definition fresh : Portfolio.t := Portfolio.init INITIAL_CAPITAL TRADE_PCT true.

(** The default portfolio after four consistent UP signals: trade 1 is open. *)
Definition holding : Portfolio.t := tick 70 (tick 70 (tick 70 (tick 70 fresh))).

(** ** Shape of the trades a portfolio holds *)

(** The active trade is open and unresolved; a closed trade is either
    resolved (WIN or LOSS, with exit price and P&L) or cancelled (with
    neither). *)
Definition unresolved (trade : Trade.t) : Prop :=
  Trade.status trade = "OPEN"%string /\
  Trade.exit_price trade = None /\ Trade.pnl trade = None.

Definition settled (trade : Trade.t) : Prop :=
  ((Trade.status trade = "WIN"%string \/ Trade.status trade = "LOSS"%string) /\
   Trade.exit_price trade <> None /\ Trade.pnl trade <> None)
  \/ (Trade.status trade = "CANCELLED"%string /\
      Trade.exit_price trade = None /\ Trade.pnl trade = None).

Definition well_formed (self : Portfolio.t) : Prop :=
  (forall trade, Portfolio.active_trade self = Some trade -> unresolved trade) /\
  Forall settled (Portfolio.closed_trades self).

(** A portfolio constructed with a capital that has a fifth decimal, after
    four consistent UP signals: its trade stakes 2.0 at price 0.40. *)
Definition holding_fine : Portfolio.t :=
  tick 70 (tick 70 (tick 70 (tick 70 (Portfolio.init 100.00001 TRADE_PCT false)))).

(** [later self self']: [self'] is [self] after any number of method calls. *)
Inductive later : Portfolio.t -> Portfolio.t -> Prop :=
| later_now self : later self self
| later_step self self' self'' : later self self' -> step self' self'' -> later self self''.

(** ** What has been persisted, read off the history of writes *)




(** The default portfolio after entering UP at price 1.0 and winning: a
    stake of 2.0 at price 1.0 buys 2.0 shares, so the resolved trade has a
    P&L of exactly 0.0. *)
Definition break_even : Portfolio.t :=
  let ready := tick 70 (tick 70 (tick 70 fresh)) in
  let entered :=
    Portfolio.self_after
      (Portfolio.consider_entry ready (up_signal 70) "SOL up or down?" 1.0 0.0 "12:00:00") in
  Portfolio.self_after (Portfolio.close_trade entered 1.0 0.0 None).

(** ** Further vocabulary for the portfolio's life cycle *)

(** The trade [consider_entry] opens when every guard is passed. *)
Definition opened_trade (self : Portfolio.t) (signal : Signal.t)
    (market_question : string) (up_price down_price : float) (now : string) : Trade.t :=
  let direction := normalize (Signal.label signal) in
  let entry_price := if (direction =? "UP")%string then up_price else down_price in
  let bet_size := Py.round (Portfolio.capital self * Portfolio.trade_pct self) 2 in
  Trade.make (Portfolio._trade_counter self + 1) market_question direction entry_price
             (Py.round (bet_size / entry_price) 4) bet_size now None None "OPEN".

(** 1 when a trade is active, 0 otherwise. *)
Definition active_count (self : Portfolio.t) : Z :=
  match Portfolio.active_trade self with Some _ => 1 | None => 0 end.

(** The ids 1, 2, ..., n. *)
Definition ids_up_to (n : nat) : list Z := map Z.of_nat (seq 1 n).

(** The closed trades were numbered 1, 2, ... in the order they closed, the
    active trade has the next number, and the counter is the last number
    given out. *)
Definition numbered (self : Portfolio.t) : Prop :=
  map Trade.id (Portfolio.closed_trades self)
  = ids_up_to (length (Portfolio.closed_trades self)) /\
  (forall trade, Portfolio.active_trade self = Some trade ->
                 Trade.id trade = Portfolio._trade_counter self) /\
  Portfolio._trade_counter self
  = Z.of_nat (length (Portfolio.closed_trades self)) + active_count self.

(** The streak is empty, or counts at least one signal of a direction; it is
    empty while a trade is active. *)
Definition streak_tidy (self : Portfolio.t) : Prop :=
  (Portfolio._signal_streak self = Streak.empty \/
   exists direction count,
     (direction = "UP"%string \/ direction = "DOWN"%string) /\ 1 <= count /\
     Portfolio._signal_streak self = Streak.make (Some direction) count) /\
  (Portfolio.active_trade self <> None -> Portfolio._signal_streak self = Streak.empty).

(** How many closed trades were resolved to a win or a loss. *)
Definition resolutions (closed : list Trade.t) : nat :=
  length (Portfolio.with_status "WIN" closed) + length (Portfolio.with_status "LOSS" closed).

(** The history starts at 0.0 and has one more point per resolution; as long
    as nothing was resolved the capital is the initial capital, afterwards the
    last point is the rounded distance of the capital from it, and the capital
    is a value rounded to four decimals. *)
Definition ledger_consistent (self : Portfolio.t) : Prop :=
  length (Portfolio.pnl_history self) = S (resolutions (Portfolio.closed_trades self)) /\
  hd_error (Portfolio.pnl_history self) = Some 0.0%float /\
  (resolutions (Portfolio.closed_trades self) = 0%nat ->
     Portfolio.capital self = Portfolio.initial_capital self) /\
  (resolutions (Portfolio.closed_trades self) <> 0%nat ->
     last (Portfolio.pnl_history self) 0.0%float
     = Py.round (Portfolio.capital self - Portfolio.initial_capital self) 4 /\
     Py.round (Portfolio.capital self) 4 = Portfolio.capital self).

(** What entry and resolution write into a trade. *)
Definition entered_properly (trade : Trade.t) : Prop :=
  (Trade.direction trade = "UP"%string \/ Trade.direction trade = "DOWN"%string) /\
  (Trade.entry_price trade <=? 0.01)%float = false /\
  (Trade.entry_price trade =? 0)%float = false.

Definition resolved_properly (trade : Trade.t) : Prop :=
  (Trade.status trade = "WIN"%string ->
     Trade.exit_price trade = Some 1.0%float /\
     Trade.pnl trade = Some (Py.round (Trade.shares trade - Trade.bet_size trade) 4)) /\
  (Trade.status trade = "LOSS"%string ->
     Trade.exit_price trade = Some 0.0%float /\
     Trade.pnl trade = Some (Py.round (- Trade.bet_size trade) 4)).

(** The portfolio after each kind of effective call, written out. *)
Definition after_entry (self : Portfolio.t) (trade : Trade.t) : Portfolio.t :=
  Portfolio.make (Portfolio.initial_capital self) (Portfolio.capital self)
    (Portfolio.trade_pct self) (Some trade) (Portfolio.closed_trades self)
    (Portfolio.pnl_history self) (Portfolio._trade_counter self + 1)
    (Portfolio._db self) Streak.empty.

Definition resolved_trade (trade : Trade.t) (won : bool) : Trade.t :=
  snd (Trade.close trade won (if won then 1.0 else 0.0)%float).

Definition capital_after_close (self : Portfolio.t) (trade : Trade.t) (won : bool) : float :=
  Py.round (Portfolio.capital self + Trade.bet_size trade
            + fst (Trade.close trade won (if won then 1.0 else 0.0)%float)) 4.

Definition after_close (self : Portfolio.t) (trade : Trade.t) (won : bool) : Portfolio.t :=
  let capital' := capital_after_close self trade won in
  Portfolio.make (Portfolio.initial_capital self) capital' (Portfolio.trade_pct self) None
    (Portfolio.closed_trades self ++ [resolved_trade trade won])
    (Portfolio.pnl_history self
     ++ [Py.round (Py.round (capital' - Portfolio.initial_capital self) 4) 4])
    (Portfolio._trade_counter self) (Portfolio._db self) Streak.empty.

Definition after_cancel (self : Portfolio.t) (trade : Trade.t) : Portfolio.t :=
  Portfolio.make (Portfolio.initial_capital self) (Portfolio.capital self)
    (Portfolio.trade_pct self) None
    (Portfolio.closed_trades self ++ [Trade.set_status trade "CANCELLED"])
    (Portfolio.pnl_history self) (Portfolio._trade_counter self) (Portfolio._db self)
    (Portfolio._signal_streak self).

(** The four ways a method call moves a portfolio. *)
Inductive move (self : Portfolio.t) : Portfolio.t -> Prop :=
| move_streak streak :
    (streak = Portfolio._signal_streak self
     \/ (Portfolio.active_trade self = None /\
         (streak = Streak.empty \/
          exists direction,
            (direction = "UP"%string \/ direction = "DOWN"%string) /\
            streak = Portfolio.track (Portfolio._signal_streak self) direction))) ->
    move self (Portfolio.set_streak self streak)
| move_entry signal market_question up_price down_price now :
    Portfolio.active_trade self = None ->
    (Trade.entry_price (opened_trade self signal market_question up_price down_price now)
     <=? 0.01)%float = false ->
    move self (after_entry self
                 (opened_trade self signal market_question up_price down_price now))
| move_close trade won :
    Portfolio.active_trade self = Some trade ->
    move self (after_close self trade won)
| move_cancel trade :
    Portfolio.active_trade self = Some trade ->
    move self (after_cancel self trade).

Definition trades_proper (self : Portfolio.t) : Prop :=
  (forall trade, Portfolio.active_trade self = Some trade -> entered_properly trade) /\
  Forall (fun trade => entered_properly trade /\ resolved_properly trade)
         (Portfolio.closed_trades self).

(** The default portfolio after its first trade was resolved as a win, and
    after a second trade was opened. *)
Definition won_once : Portfolio.t :=
  Portfolio.self_after (Portfolio.close_trade holding 0.97 0.03 None).

Definition holding_again : Portfolio.t := tick 70 (tick 70 (tick 70 (tick 70 won_once))).

(** ** A portfolio together with the store it writes to *)









(** ** A run of polling ticks *)

(** One call to [consider_entry]: its arguments. *)
Record call := {
  call_signal : Signal.t;
  call_market : string;
  call_up : float;
  call_down : float;
  call_now : string
}.

(** The portfolio after the calls, one after the other. *)
Definition feed (self : Portfolio.t) (calls : list call) : Portfolio.t :=
  fold_left (fun s c =>
               Portfolio.self_after
                 (Portfolio.consider_entry s (call_signal c) (call_market c)
                                           (call_up c) (call_down c) (call_now c)))
            calls self.

(** How many of the labels, latest first, are directional and of the given
    direction before the first that is not. *)
Fixpoint run_length (direction : string) (latest_first : list string) : Z :=
  match latest_first with
  | label :: earlier =>
      if Portfolio.is_directional label && (normalize label =? direction)%string
      then 1 + run_length direction earlier
      else 0
  | [] => 0
  end.

(** The streak a sequence of labels amounts to: nothing after a
    non-directional label, otherwise the direction of the last label and the
    length of the run of that direction the sequence ends with. *)
Definition streak_of (labels : list string) : Streak.t :=
  match rev labels with
  | [] => Streak.empty
  | label :: earlier =>
      if Portfolio.is_directional label
      then Streak.make (Some (normalize label)) (run_length (normalize label) (label :: earlier))
      else Streak.empty
  end.

(** ** strategy.py: the slot clock and the signal *)

Module Strategy.

Definition OBI_THRESHOLD : float := 0.15.
Definition SLOT_ORIGIN : Z := 1771778100.
Definition SLOT_STEP : Z := 300.

(** [now] is [int(time.time())], the clock read by the call. *)
Definition get_current_slot_ts (now lookahead : Z) : Z :=
  let elapsed := (now - SLOT_ORIGIN) mod SLOT_STEP in
  let current := now - elapsed in
  current + lookahead * SLOT_STEP.

(** [int(x)] on a float: the value truncated towards zero; [None] stands for
    the [ValueError] on NaN and the [OverflowError] on an infinity. *)
Definition int_of_float (x : float) : option Z :=
  match Prim2SF x with
  | S754_zero _ => Some 0
  | S754_finite s m e =>
      let magnitude := if 0 <=? e then Zpos m * 2 ^ e else Zpos m / 2 ^ (- e) in
      Some (if s then - magnitude else magnitude)
  | _ => None
  end.

(** The colour constants the signal is returned with. *)
Inductive color := GREEN | RED | YELLOW.

(** [obi_window] is the deque of the recent imbalances.  [None] stands for
    the exception [int] raises when the combined imbalance is infinite. *)
Definition compute_signal (obi_now : float) (obi_window : list float) (threshold : float)
  : option (string * color * Z * float) :=
  let avg_obi :=
    match obi_window with
    | [] => obi_now
    | _ :: _ =>
        (PyNum.to_float (PyNum.sum obi_window)
         / PyNum.float_of_int (Z.of_nat (Datatypes.length obi_window)))%float
    end in
  let combined := (0.6 * obi_now + 0.4 * avg_obi)%float in
  let abs_c := abs combined in
  if (threshold <? combined)%float then
    match int_of_float (PyNum.float_of_int 50 + (abs_c / 0.5) * 50)%float with
    | Some n =>
        let conf := Z.min n 99 in
        let label := if (threshold * 2 <? combined)%float
                     then "STRONG UP  ▲▲"%string else "UP  ▲"%string in
        Some (label, GREEN, conf, combined)
    | None => None
    end
  else if (combined <? - threshold)%float then
    match int_of_float (PyNum.float_of_int 50 + (abs_c / 0.5) * 50)%float with
    | Some n =>
        let conf := Z.min n 99 in
        let label := if (combined <? - threshold * 2)%float
                     then "STRONG DOWN  ▼▼"%string else "DOWN  ▼"%string in
        Some (label, RED, conf, combined)
    | None => None
    end
  else Some ("NEUTRAL  ──"%string, YELLOW, 50, combined).

End Strategy.

(** * Properties *)

(** ** Facts about binary64 comparison and multiplication *)

Section FloatFacts.

Lemma SFcompare_antisym (x y : spec_float) :
  SFcompare y x = option_map CompOpp (SFcompare x y).
Proof.
  destruct x as [sx | sx | | sx mx ex], y as [sy | sy | | sy my ey]; simpl;
    try reflexivity;
    try (destruct sx; reflexivity);
    try (destruct sy; reflexivity);
    try (destruct sx, sy; reflexivity).
  rewrite (Z.compare_antisym ex ey).
  change (Pcompare my mx Eq) with (my ?= mx)%positive.
  change (Pcompare mx my Eq) with (mx ?= my)%positive.
  rewrite (Pos.compare_antisym mx my).
  destruct sx, sy; simpl; try reflexivity;
    destruct (ex ?= ey); simpl; try reflexivity;
    destruct (mx ?= my)%positive; reflexivity.
Qed.

(** [x <= y] excludes [y < x], NaN included. *)
Lemma leb_true_ltb_false (x y : float) :
  (x <=? y)%float = true -> (y <? x)%float = false.
Proof.
  rewrite FloatAxioms.leb_spec, FloatAxioms.ltb_spec; unfold SFleb, SFltb.
  rewrite (SFcompare_antisym (Prim2SF x) (Prim2SF y)).
  destruct (SFcompare (Prim2SF x) (Prim2SF y)) as [[ | | ] | ]; simpl; congruence.
Qed.

(** [x < y] excludes [y <= x]. *)
Lemma ltb_true_leb_false (x y : float) :
  (x <? y)%float = true -> (y <=? x)%float = false.
Proof.
  intros H; destruct (y <=? x)%float eqn:E; [ | reflexivity ].
  apply leb_true_ltb_false in E; congruence.
Qed.

(** A price that passes the guard [entry_price <= 0.01] is not a zero, so
    the division that computes the shares has a non-zero divisor. *)
Lemma price_guard_excludes_zero (p : float) :
  (p <=? 0.01)%float = false -> (p =? 0)%float = false.
Proof.
  rewrite FloatAxioms.leb_spec, FloatAxioms.eqb_spec; unfold SFleb, SFeqb.
  assert (E0 : Prim2SF 0 = S754_zero false) by (vm_compute; reflexivity).
  assert (E1 : Prim2SF 0.01 = S754_finite false 5764607523034235 (-59))
    by (vm_compute; reflexivity).
  rewrite E0, E1.
  destruct (Prim2SF p) as [s | s | | s m e]; cbn [SFcompare]; try congruence;
    destruct s; intros _; reflexivity.
Qed.

(** Multiplying a binary64 value by [1.0] returns it. *)
Lemma SFmul_one (s : bool) (m : positive) (e : Z) :
  bounded prec emax m e = true ->
  SFmul prec emax (S754_finite s m e) (S754_finite false 4503599627370496 (-52))
  = S754_finite s m e.
Proof.
  intros Hb. unfold bounded, canonical_mantissa in Hb.
  apply andb_prop in Hb. destruct Hb as [Hc He].
  apply Z.eqb_eq in Hc.
  cbn [SFmul]. rewrite xorb_false_r.
  rewrite Pos.mul_comm.
  change (4503599627370496 * m)%positive with (Pos.iter xO m 52).
  assert (Hd : Z.pos (digits2_pos (Pos.iter xO m 52)) = Z.pos (digits2_pos m) + 52).
  { cbn [Pos.iter digits2_pos]. rewrite !Pos2Z.inj_succ. lia. }
  assert (H1 : shr_fexp prec emax (Z.pos (Pos.iter xO m 52)) (e + -52) loc_Exact
               = ({| shr_m := Z.pos m; shr_r := false; shr_s := false |}, e)).
  { unfold shr_fexp. cbn [Zdigits2]. rewrite Hd.
    replace (Z.pos (digits2_pos m) + 52 + (e + -52)) with (Z.pos (digits2_pos m) + e) by lia.
    rewrite Hc. replace (e - (e + -52)) with 52 by lia.
    cbn [shr shr_record_of_loc Pos.iter iter_pos shr_1 orb].
    f_equal; lia. }
  assert (H2 : shr_fexp prec emax (Z.pos m) e loc_Exact
               = ({| shr_m := Z.pos m; shr_r := false; shr_s := false |}, e)).
  { unfold shr_fexp. cbn [Zdigits2]. rewrite Hc, Z.sub_diag. reflexivity. }
  unfold binary_round_aux. rewrite H1.
  cbn [shr_m loc_of_shr_record round_nearest_even]. rewrite H2.
  cbn [shr_m]. rewrite He. reflexivity.
Qed.

Lemma mul_one (x : float) : (x * 1)%float = x.
Proof.
  apply Prim2SF_inj. rewrite mul_spec.
  assert (E1 : Prim2SF 1 = S754_finite false 4503599627370496 (-52))
    by (vm_compute; reflexivity).
  rewrite E1. pose proof (Prim2SF_valid x) as V.
  destruct (Prim2SF x) as [s | s | | s m e]; try reflexivity.
  - cbn [SF64mul SFmul]. rewrite xorb_false_r. reflexivity.
  - cbn [SF64mul SFmul]. rewrite xorb_false_r. reflexivity.
  - apply SFmul_one. exact V.
Qed.

End FloatFacts.

Lemma reachable_tick confidence self : reachable self -> reachable (tick confidence self).
Proof. intros R. eapply reachable_step; [ exact R | apply step_consider_entry ]. Qed.

Lemma reachable_holding : reachable holding.
Proof. do 4 apply reachable_tick. apply reachable_init. Qed.

(** ** Python's [round] on floats *)

Section Rounding.

Lemma rhe_unique p q N : 0 < q -> 2 * Z.abs (p - N * q) < q -> Py.round_half_even p q = N.
Proof.
  intros Hq H. unfold Py.round_half_even. cbv zeta.
  pose proof (Z.div_mod p q ltac:(lia)) as E.
  pose proof (Z.mod_pos_bound p q Hq) as B.
  remember (p / q) as d eqn:Ed. remember (p mod q) as r eqn:Er. clear Ed Er.
  assert (K : p - N * q = q * (d - N) + r) by (rewrite E; ring).
  rewrite K in H. clear K E.
  assert (d = N \/ d = N - 1) as [Hd | Hd] by nia.
  - subst d. replace (q * (N - N) + r) with r in H by ring.
    destruct (Z.compare_spec (2 * r) q); [ lia | reflexivity | lia ].
  - subst d. replace (q * (N - 1 - N) + r) with (r - q) in H by ring.
    destruct (Z.compare_spec (2 * r) q); lia.
Qed.

Lemma rhe_bound p q : 0 < q -> 2 * Z.abs (Py.round_half_even p q * q - p) <= q.
Proof.
  intros Hq. unfold Py.round_half_even. cbv zeta.
  pose proof (Z.div_mod p q ltac:(lia)) as E.
  pose proof (Z.mod_pos_bound p q Hq) as B.
  remember (p / q) as d eqn:Ed. remember (p mod q) as r eqn:Er. clear Ed Er.
  destruct (Z.compare_spec (2 * r) q).
  - destruct (Z.even d).
    + replace (d * q - p) with (- r) by (rewrite E; ring). lia.
    + replace ((d + 1) * q - p) with (q - r) by (rewrite E; ring). lia.
  - replace (d * q - p) with (- r) by (rewrite E; ring). lia.
  - replace ((d + 1) * q - p) with (q - r) by (rewrite E; ring). lia.
Qed.

Lemma nearest_unfold s n d :
  Py.nearest s n d =
  let sh := Z.log2 (Zpos d) + 1 in
  let l := Z.log2 (Zpos n * 2 ^ sh / Zpos d) - sh in
  let e := Z.max (l - 52) (-1074) in
  let m := Py.round_half_even (num (Zpos n) e) (den (Zpos d) e) in
  let '(m, e) := if m =? 2 ^ 53 then (2 ^ 52, e + 1) else (m, e) in
  match m with
  | Zpos p => if e <=? 971 then S754_finite s p e else S754_infinity s
  | _ => S754_zero s
  end.
Proof. reflexivity. Qed.

(** binade of p / 10000 *)
Lemma binade_10000 (p : positive) :
  let j := Z.log2 (Zpos p * 2 ^ 14 / 10000) in
  0 <= j /\ 10000 * 2 ^ j <= Zpos p * 2 ^ 14 < 10000 * 2 ^ (j + 1).
Proof.
  intros j.
  assert (HA : 1 <= Zpos p * 2 ^ 14 / 10000).
  { apply Z.div_le_lower_bound; lia. }
  pose proof (Z.log2_spec (Zpos p * 2 ^ 14 / 10000) ltac:(lia)) as [L U].
  fold j in L, U. split; [ apply Z.log2_nonneg | ].
  pose proof (Z.mul_div_le (Zpos p * 2 ^ 14) 10000 ltac:(lia)) as D1.
  pose proof (Z.mul_succ_div_gt (Zpos p * 2 ^ 14) 10000 ltac:(lia)) as D2.
  assert (Hj : 0 <= j) by apply Z.log2_nonneg.
  rewrite Z.pow_succ_r in U by exact Hj.
  replace (j + 1) with (Z.succ j) by lia. rewrite Z.pow_succ_r by exact Hj.
  lia.
Qed.

Lemma den_pos d e : 0 < d -> 0 < den d e.
Proof. intros H. unfold den. apply Z.mul_pos_pos; [ exact H | apply Z.pow_pos_nonneg; lia ]. Qed.

Lemma rhe_normal P Q :
  0 < Q -> 2 ^ 52 * Q <= P < 2 ^ 53 * Q ->
  2 ^ 52 <= Py.round_half_even P Q <= 2 ^ 53.
Proof.
  intros HQ [L U]. pose proof (rhe_bound P Q HQ) as B.
  remember (Py.round_half_even P Q) as m. clear Heqm.
  change (2 ^ 52) with 4503599627370496 in *.
  change (2 ^ 53) with 9007199254740992 in *.
  split.
  - destruct (Z_lt_le_dec m 4503599627370496) as [C | C]; [ | exact C ].
    exfalso. assert (m * Q <= 4503599627370495 * Q) by (apply Z.mul_le_mono_nonneg_r; lia).
    lia.
  - destruct (Z_lt_le_dec 9007199254740992 m) as [C | C]; [ | exact C ].
    exfalso. assert (9007199254740993 * Q <= m * Q) by (apply Z.mul_le_mono_nonneg_r; lia).
    lia.
Qed.

(** In the binade found for [p / 10000] the scaled quotient lies in
    [2^52, 2^53). *)
Lemma scaled_normal (p : positive) j :
  0 <= j -> 10000 * 2 ^ j <= Zpos p * 2 ^ 14 < 10000 * 2 ^ (j + 1) ->
  2 ^ 52 * den 10000 (j - 66) <= num (Zpos p) (j - 66) < 2 ^ 53 * den 10000 (j - 66).
Proof.
  intros Hj [L U]. unfold num, den.
  replace (j + 1) with (Z.succ j) in U by lia. rewrite Z.pow_succ_r in U by exact Hj.
  change (2 ^ 14) with 16384 in *.
  change (2 ^ 52) with 4503599627370496.
  change (2 ^ 53) with 9007199254740992.
  destruct (Z_lt_le_dec (j - 66) 0) as [C | C].
  - rewrite (Z.max_l (- (j - 66)) 0), (Z.max_r (j - 66) 0) by lia.
    change (2 ^ 0) with 1.
    assert (E : 2 ^ j * 2 ^ (- (j - 66)) = 73786976294838206464).
    { rewrite <- Z.pow_add_r by lia. replace (j + - (j - 66)) with 66 by lia. reflexivity. }
    assert (K : 0 < 2 ^ (- (j - 66))) by (apply Z.pow_pos_nonneg; lia).
    remember (2 ^ (- (j - 66))) as k. remember (2 ^ j) as J.
    assert (L' : 10000 * J * k <= Zpos p * 16384 * k) by (apply Z.mul_le_mono_nonneg_r; lia).
    assert (U' : Zpos p * 16384 * k < 10000 * (2 * J) * k) by (apply Z.mul_lt_mono_pos_r; lia).
    replace (10000 * J * k) with (10000 * (J * k)) in L' by ring.
    replace (10000 * (2 * J) * k) with (20000 * (J * k)) in U' by ring.
    rewrite E in L', U'. lia.
  - rewrite (Z.max_r (- (j - 66)) 0), (Z.max_l (j - 66) 0) by lia.
    change (2 ^ 0) with 1.
    assert (E : 2 ^ j = 2 ^ (j - 66) * 73786976294838206464).
    { change 73786976294838206464 with (2 ^ 66). rewrite <- Z.pow_add_r by lia.
      f_equal. lia. }
    rewrite E in L, U.
    assert (K : 0 < 2 ^ (j - 66)) by (apply Z.pow_pos_nonneg; lia).
    remember (2 ^ (j - 66)) as k. lia.
Qed.

Lemma num_den_succ n d e :
  (0 <= e /\ num n (e + 1) = num n e /\ den d (e + 1) = 2 * den d e)
  \/ (e < 0 /\ num n e = 2 * num n (e + 1) /\ den d (e + 1) = den d e).
Proof.
  unfold num, den. destruct (Z_lt_le_dec e 0) as [C | C]; [ right | left ].
  - split; [ exact C | ].
    rewrite (Z.max_l (- e) 0), (Z.max_l (- (e + 1)) 0), (Z.max_r e 0), (Z.max_r (e + 1) 0) by lia.
    split; [ | reflexivity ].
    replace (- e) with (Z.succ (- (e + 1))) by lia. rewrite Z.pow_succ_r by lia. ring.
  - split; [ exact C | ].
    rewrite (Z.max_r (- e) 0), (Z.max_r (- (e + 1)) 0), (Z.max_l e 0), (Z.max_l (e + 1) 0) by lia.
    split; [ reflexivity | ].
    replace (e + 1) with (Z.succ e) by lia. rewrite Z.pow_succ_r by lia. ring.
Qed.

(** What a finite result of [nearest] for a quotient by 10000 looks like. *)
Lemma nearest_10000_finite s p s' m' e' :
  Py.nearest s p 10000 = S754_finite s' m' e' ->
  s' = s /\ 2 ^ 52 <= Zpos m' < 2 ^ 53 /\ -66 <= e' <= 971 /\
  2 * Z.abs (Zpos m' * den 10000 e' - num (Zpos p) e') <= den 10000 e'.
Proof.
  rewrite nearest_unfold. cbv zeta.
  change (Z.log2 (Zpos 10000) + 1) with 14.
  destruct (binade_10000 p) as (Hj & Hb). cbv zeta in Hj, Hb.
  remember (Z.log2 (Zpos p * 2 ^ 14 / Zpos 10000)) as j eqn:Ej. clear Ej.
  replace (Z.max (j - 14 - 52) (-1074)) with (j - 66) by lia.
  pose proof (scaled_normal p j Hj Hb) as Hs.
  pose proof (den_pos 10000 (j - 66) ltac:(lia)) as HQ.
  pose proof (rhe_normal _ _ HQ Hs) as Hm.
  pose proof (rhe_bound (num (Zpos p) (j - 66)) _ HQ) as He.
  remember (Py.round_half_even (num (Zpos p) (j - 66)) (den 10000 (j - 66))) as m eqn:Em.
  clear Em.
  change (2 ^ 52) with 4503599627370496 in *.
  change (2 ^ 53) with 9007199254740992 in *.
  destruct (Z.eqb_spec m 9007199254740992) as [C | C].
  - destruct (j - 66 + 1 <=? 971) eqn:Le; [ | discriminate ].
    apply Z.leb_le in Le. intros H. injection H as <- <- <-.
    split; [ reflexivity | ]. split; [ lia | ]. split; [ lia | ].
    subst m.
    destruct (num_den_succ (Zpos p) 10000 (j - 66)) as [(_ & En & Ed) | (_ & En & Ed)].
    + rewrite En, Ed. lia.
    + rewrite Ed. rewrite En in He. lia.
  - destruct m as [ | q | q ]; try lia.
    destruct (j - 66 <=? 971) eqn:Le; [ | discriminate ].
    apply Z.leb_le in Le. intros H. injection H as <- <- <-.
    split; [ reflexivity | ]. split; [ lia | ]. split; [ lia | exact He ].
Qed.

Lemma scaled_normal_inv (n : positive) e :
  -66 <= e ->
  2 ^ 52 * den 10000 e <= num (Zpos n) e < 2 ^ 53 * den 10000 e ->
  10000 * 2 ^ (e + 66) <= Zpos n * 2 ^ 14 < 10000 * 2 ^ (e + 67).
Proof.
  intros He [L U]. unfold num, den in L, U.
  change (2 ^ 14) with 16384.
  change (2 ^ 52) with 4503599627370496 in *.
  change (2 ^ 53) with 9007199254740992 in *.
  destruct (Z_lt_le_dec e 0) as [C | C].
  - rewrite (Z.max_l (- e) 0), (Z.max_r e 0) in L, U by lia.
    change (2 ^ 0) with 1 in L, U.
    assert (E : 2 ^ (e + 66) * 2 ^ (- e) = 73786976294838206464).
    { rewrite <- Z.pow_add_r by lia. replace (e + 66 + - e) with 66 by lia. reflexivity. }
    assert (E' : 2 ^ (e + 67) = 2 * 2 ^ (e + 66)).
    { replace (e + 67) with (Z.succ (e + 66)) by lia. rewrite Z.pow_succ_r by lia. reflexivity. }
    rewrite E'.
    assert (K : 0 < 2 ^ (- e)) by (apply Z.pow_pos_nonneg; lia).
    remember (2 ^ (- e)) as k. remember (2 ^ (e + 66)) as J.
    split.
    + apply (Z.mul_le_mono_pos_r _ _ k K).
      replace (10000 * J * k) with (10000 * (J * k)) by ring. rewrite E. lia.
    + apply (Z.mul_lt_mono_pos_r k _ _ K).
      replace (10000 * (2 * J) * k) with (20000 * (J * k)) by ring. rewrite E. lia.
  - rewrite (Z.max_r (- e) 0), (Z.max_l e 0) in L, U by lia.
    change (2 ^ 0) with 1 in L, U.
    assert (E : 2 ^ (e + 66) = 2 ^ e * 73786976294838206464).
    { change 73786976294838206464 with (2 ^ 66). rewrite <- Z.pow_add_r by lia. reflexivity. }
    assert (E' : 2 ^ (e + 67) = 2 ^ e * 147573952589676412928).
    { change 147573952589676412928 with (2 ^ 67). rewrite <- Z.pow_add_r by lia. reflexivity. }
    rewrite E, E'.
    assert (K : 0 < 2 ^ e) by (apply Z.pow_pos_nonneg; lia).
    remember (2 ^ e) as k. lia.
Qed.

(** A binary64 value that is strictly nearer to [n / 10000] than half a unit
    in its last place, the quotient lying in its binade, is what [nearest]
    returns. *)
Lemma nearest_10000_intro s n m' e' :
  2 ^ 52 <= Zpos m' < 2 ^ 53 -> -66 <= e' <= 971 ->
  2 ^ 52 * den 10000 e' <= num (Zpos n) e' < 2 ^ 53 * den 10000 e' ->
  2 * Z.abs (num (Zpos n) e' - Zpos m' * den 10000 e') < den 10000 e' ->
  Py.nearest s n 10000 = S754_finite s m' e'.
Proof.
  intros Hm He Hs Hn. rewrite nearest_unfold. cbv zeta.
  change (Z.log2 (Zpos 10000) + 1) with 14.
  pose proof (scaled_normal_inv n e' ltac:(lia) Hs) as [L U].
  assert (Ej : Z.log2 (Zpos n * 2 ^ 14 / Zpos 10000) = e' + 66).
  { apply Z.log2_unique; [ lia | ]. split.
    - apply Z.div_le_lower_bound; [ lia | exact L ].
    - replace (Z.succ (e' + 66)) with (e' + 67) by lia.
      apply Z.div_lt_upper_bound; [ lia | exact U ]. }
  rewrite Ej. replace (Z.max (e' + 66 - 14 - 52) (-1074)) with e' by lia.
  rewrite (rhe_unique _ _ (Zpos m') (den_pos 10000 e' ltac:(lia)) Hn).
  change (2 ^ 53) with 9007199254740992 in *.
  destruct (Z.eqb_spec (Zpos m') 9007199254740992) as [C | C]; [ lia | ].
  destruct (Z.leb_spec e' 971); [ reflexivity | lia ].
Qed.

Ltac fold_powers :=
  repeat match goal with
         | |- context [2 ^ Zpos ?k] =>
             let v := eval vm_compute in (2 ^ Zpos k) in change (2 ^ Zpos k) with v
         | |- context [2 ^ 0] => change (2 ^ 0) with 1
         end.

(** The decimal digits of a result of [nearest] lead back to it. *)
Lemma digits_fixed s p s' m' e' :
  Py.nearest s p 10000 = S754_finite s' m' e' ->
  exists p', Py.decimal_digits m' e' 4 = Zpos p' /\
             Py.nearest s' p' 10000 = S754_finite s' m' e'.
Proof.
  intros H. destruct (nearest_10000_finite s p s' m' e' H) as (-> & Hm & He & Hb).
  unfold Py.decimal_digits.
  change (10 ^ Z.max 4 0) with 10000. change (10 ^ Z.max (- (4)) 0) with 1.
  change (2 ^ 52) with 4503599627370496 in *.
  change (2 ^ 53) with 9007199254740992 in *.
  destruct (Z_le_gt_dec e' (-14)) as [A | A]; [ | destruct (Z_le_gt_dec 0 e') as [B | B] ].
  - (* the digits are those the value came from *)
    exists p. split; [ | exact H ].
    rewrite (Z.max_r e' 0), (Z.max_l (- e') 0) by lia.
    change (2 ^ 0) with 1. rewrite !Z.mul_1_r.
    unfold num, den in Hb.
    rewrite (Z.max_r e' 0), (Z.max_l (- e') 0) in Hb by lia.
    change (2 ^ 0) with 1 in Hb. rewrite Z.mul_1_r in Hb.
    assert (K : 2 ^ 14 <= 2 ^ (- e')) by (apply Z.pow_le_mono_r; lia).
    change (2 ^ 14) with 16384 in K.
    apply rhe_unique; [ lia | ]. lia.
  - (* the value is an integer *)
    rewrite (Z.max_l e' 0), (Z.max_r (- e') 0) by lia.
    change (2 ^ 0) with 1. rewrite Z.mul_1_r.
    assert (K : 0 < 2 ^ e') by (apply Z.pow_pos_nonneg; lia).
    assert (P : 0 < Zpos m' * 2 ^ e' * 10000) by lia.
    rewrite (rhe_unique _ 1 (Zpos m' * 2 ^ e' * 10000))
      by (try lia; rewrite Z.mul_1_r, Z.sub_diag; change (Z.abs 0) with 0; lia).
    exists (Z.to_pos (Zpos m' * 2 ^ e' * 10000)).
    rewrite Z2Pos.id by exact P. split; [ reflexivity | ].
    apply nearest_10000_intro; [ lia | lia | | ];
      unfold num, den; rewrite Z2Pos.id by exact P;
      rewrite (Z.max_l e' 0), (Z.max_r (- e') 0) by lia;
      change (2 ^ 0) with 1; rewrite Z.mul_1_r.
    + change (2 ^ 52) with 4503599627370496.
      change (2 ^ 53) with 9007199254740992.
      remember (2 ^ e') as k. nia.
    + replace (Zpos m' * 2 ^ e' * 10000 - Zpos m' * (10000 * 2 ^ e')) with 0 by ring.
      change (Z.abs 0) with 0. lia.
  - (* the unit in the last place is below one ten-thousandth *)
    assert (E : e' = -13 \/ e' = -12 \/ e' = -11 \/ e' = -10 \/ e' = -9 \/ e' = -8 \/
                e' = -7 \/ e' = -6 \/ e' = -5 \/ e' = -4 \/ e' = -3 \/ e' = -2 \/ e' = -1)
      by lia.
    repeat (destruct E as [-> | E]); try subst e';
      (cbn [Z.max Z.compare Z.opp Pos.compare Pos.compare_cont];
       fold_powers;
       match goal with
       | |- context [Py.round_half_even ?P ?Q] =>
           pose proof (rhe_bound P Q ltac:(lia)) as R;
           remember (Py.round_half_even P Q) as t eqn:Et; clear Et
       end;
       assert (T : 0 < t) by lia;
       exists (Z.to_pos t); rewrite Z2Pos.id by exact T;
       split; [ reflexivity | ];
       apply nearest_10000_intro; [ lia | lia | | ];
       unfold num, den; rewrite Z2Pos.id by exact T;
       cbn [Z.max Z.compare Z.opp Pos.compare Pos.compare_cont];
       fold_powers; lia).
Qed.

(** ** Rounding to four decimals is idempotent *)

Lemma digits2_pos_size m : digits2_pos m = Pos.size m.
Proof. induction m as [m IH | m IH | ]; cbn; [ rewrite IH | rewrite IH | ]; reflexivity. Qed.

Lemma digits2_log2 m : Zpos (digits2_pos m) = Z.log2 (Zpos m) + 1.
Proof.
  rewrite digits2_pos_size. destruct m as [m | m | ]; cbn [Z.log2 Pos.size];
    [ rewrite Pos2Z.inj_succ; lia | rewrite Pos2Z.inj_succ; lia | reflexivity ].
Qed.

Lemma nearest_10000_valid s p : valid_binary (Py.nearest s p 10000) = true.
Proof.
  destruct (Py.nearest s p 10000) as [ | | | s' m' e'] eqn:E; try reflexivity.
  destruct (nearest_10000_finite s p s' m' e' E) as (_ & Hm & He & _).
  unfold SpecFloat.valid_binary, bounded, canonical_mantissa, fexp.
  rewrite digits2_log2.
  rewrite (Z.log2_unique (Zpos m') 52) by (change (Z.succ 52) with 53; lia).
  change (SpecFloat.emin prec emax) with (-1074). change (emax - prec) with 971.
  change prec with 53.
  apply andb_true_intro. split; [ apply Z.eqb_eq | apply Z.leb_le ]; lia.
Qed.

Lemma round4_of_nearest s p :
  Py.round (SF2Prim (Py.nearest s p 10000)) 4 = SF2Prim (Py.nearest s p 10000).
Proof.
  unfold Py.round. rewrite Prim2SF_SF2Prim by apply nearest_10000_valid.
  destruct (Py.nearest s p 10000) as [ | | | s' m' e'] eqn:E; try reflexivity.
  destruct (digits_fixed s p s' m' e' E) as (p' & Ed & En).
  rewrite Ed. unfold Py.strtod.
  change (10 ^ Z.max (- (4)) 0) with 1. change (10 ^ Z.max 4 0) with 10000.
  rewrite Z.mul_1_r. cbv iota. rewrite En. reflexivity.
Qed.

Lemma round4_of_zero s :
  Py.round (SF2Prim (S754_zero s)) 4 = SF2Prim (S754_zero s).
Proof. unfold Py.round. rewrite Prim2SF_SF2Prim by reflexivity. reflexivity. Qed.

(** [round(round(x, 4), 4) == round(x, 4)] for every float. *)
Lemma round4_idempotent (x : float) : Py.round (Py.round x 4) 4 = Py.round x 4.
Proof.
  destruct (Prim2SF x) as [s | s | | s m e] eqn:E.
  1-3: assert (H : Py.round x 4 = x) by (unfold Py.round; rewrite E; reflexivity);
       rewrite !H; reflexivity.
  assert (H : Py.round x 4 = Py.strtod s (Py.decimal_digits m e 4) 4)
    by (unfold Py.round; rewrite E; reflexivity).
  rewrite H. unfold Py.strtod.
  change (10 ^ Z.max (- (4)) 0) with 1. change (10 ^ Z.max 4 0) with 10000.
  rewrite Z.mul_1_r.
  destruct (Py.decimal_digits m e 4) as [ | p | p ];
    [ apply round4_of_zero | apply round4_of_nearest | apply round4_of_zero ].
Qed.

(** The model of [round] on values whose rounding is well known. *)
Example round_samples :
  Py.round 2.675 2 = 2.67%float /\ Py.round 0.125 2 = 0.12%float /\
  Py.round 0.375 2 = 0.38%float /\ Py.round 2.5 0 = 2.0%float /\
  Py.round 3.5 0 = 4.0%float /\ Py.round 1234567.891 (-2) = 1234600.0%float /\
  Py.round 100.00001 4 = 100.0%float /\ Py.round (2 / 0.3) 4 = 6.6667%float /\
  Py.round (-0.00001) 4 = (-0.0)%float /\ Py.round 1e300 4 = 1e300%float /\
  Py.round infinity 4 = infinity /\ Py.round nan 4 = nan.
Proof. vm_compute. repeat split; reflexivity. Qed.

(** [nearest] returns what the IEEE division returns on the samples. *)
Example nearest_agrees_with_division :
  forallb (fun '(n, d) => agrees_with_division n d) division_samples = true.
Proof. vm_compute. reflexivity. Qed.

End Rounding.

(** ** Invariant of the reachable states *)

Lemma well_formed_init ic pct db : well_formed (Portfolio.init ic pct db).
Proof. split; [ discriminate | constructor ]. Qed.

Lemma consider_entry_cases self signal market up down now :
  let o := Portfolio.consider_entry self signal market up down now in
  (Portfolio.returned o = false /\
   exists streak, Portfolio.self_after o = Portfolio.set_streak self streak)
  \/ (Portfolio.returned o = true /\
      Portfolio.active_trade self = None /\
      Portfolio.closed_trades (Portfolio.self_after o) = Portfolio.closed_trades self /\
      exists trade, Portfolio.active_trade (Portfolio.self_after o) = Some trade /\
                    unresolved trade).
Proof.
  unfold Portfolio.consider_entry.
  destruct (Portfolio.active_trade self) eqn:Ea.
  { left; split; [ reflexivity | ].
    exists (Portfolio._signal_streak self). destruct self; reflexivity. }
  destruct (Portfolio.capital self <? 1)%float.
  { left; split; [ reflexivity | ].
    exists (Portfolio._signal_streak self). destruct self; reflexivity. }
  destruct (negb (Portfolio.is_directional (Signal.label signal))).
  { left; split; [ reflexivity | eexists; reflexivity ]. }
  cbv zeta.
  destruct (_ <? ENTRY_AFTER_N).
  { left; split; [ reflexivity | eexists; reflexivity ]. }
  destruct (_ <? MIN_CONFIDENCE).
  { left; split; [ reflexivity | eexists; reflexivity ]. }
  destruct (_ <=? 0.01)%float.
  { left; split; [ reflexivity | eexists; reflexivity ]. }
  right. cbn. repeat split; eauto. eexists; split; [ reflexivity | ].
  repeat split.
Qed.

Lemma well_formed_set_streak self streak :
  well_formed self -> well_formed (Portfolio.set_streak self streak).
Proof. intros [Ha Hc]; split; assumption. Qed.

Lemma close_settles trade won exit_price :
  unresolved trade -> settled (snd (Trade.close trade won exit_price)).
Proof.
  intros _. left. unfold Trade.close; cbn.
  destruct won; (split; [ auto | split; discriminate ]).
Qed.

Lemma cancel_settles trade :
  unresolved trade -> settled (Trade.set_status trade "CANCELLED").
Proof. intros (_ & He & Hp). right. cbn. auto. Qed.

Lemma well_formed_step self self' :
  well_formed self -> step self self' -> well_formed self'.
Proof.
  intros WF St. destruct St as [self sg mq up dn now | self up dn fw | self].
  - destruct (consider_entry_cases self sg mq up dn now)
      as [(_ & st & E) | (_ & _ & Ec & trade & Et & U)].
    + rewrite E. apply well_formed_set_streak, WF.
    + destruct WF as [_ Hc]. split.
      * intros t Ht. rewrite Et in Ht. injection Ht as <-. exact U.
      * rewrite Ec. exact Hc.
  - unfold Portfolio.close_trade.
    destruct (Portfolio.active_trade self) as [trade | ] eqn:Ea; [ | exact WF ].
    destruct WF as [Ha Hc]. specialize (Ha trade Ea).
    pose proof (close_settles trade
                  match fw with
                  | Some forced => forced
                  | None => if (Trade.direction trade =? "UP")%string
                            then (0.5 <=? up)%float else (0.5 <=? dn)%float
                  end) as S.
    cbv zeta.
    match goal with
    | |- context [Trade.close trade ?w ?x] =>
        specialize (S x Ha); destruct (Trade.close trade w x) as [p t'] eqn:Ec
    end.
    cbn in S |- *. split; [ discriminate | ].
    cbn. apply Forall_app. split; [ exact Hc | constructor; [ exact S | constructor ] ].
  - unfold Portfolio.cancel_active_trade.
    destruct (Portfolio.active_trade self) as [trade | ] eqn:Ea; [ | exact WF ].
    destruct WF as [Ha Hc]. specialize (Ha trade Ea). cbn.
    split; [ discriminate | ].
    cbn. apply Forall_app. split; [ exact Hc | ].
    constructor; [ apply cancel_settles, Ha | constructor ].
Qed.

Lemma reachable_well_formed self : reachable self -> well_formed self.
Proof.
  induction 1 as [ic pct db | self self' _ IH St].
  - apply well_formed_init.
  - exact (well_formed_step self self' IH St).
Qed.

Lemma settled_not_open trade : settled trade -> is_open trade = false.
Proof.
  unfold is_open. intros [([E | E] & _) | (E & _)]; rewrite E; reflexivity.
Qed.

Lemma no_open_among_settled trades :
  Forall settled trades -> filter is_open trades = [].
Proof.
  induction 1 as [ | t l Ht _ IH]; [ reflexivity | ].
  cbn. rewrite (settled_not_open t Ht). exact IH.
Qed.

(** ** At most one active trade *)

(** C2. While a trade is active, [consider_entry] returns false whatever the
    signal, the market and the prices are, leaves the whole portfolio
    (signal streak included) as it was and writes nothing; and a portfolio
    reached from the constructor through its methods never holds more than
    one trade whose status is OPEN. *)
Theorem consider_entry_refused_while_active :
  (forall self trade signal market_question up_price down_price now,
      Portfolio.active_trade self = Some trade ->
      Portfolio.consider_entry self signal market_question up_price down_price now
      = Portfolio.done false self [])
  /\ (forall self, reachable self ->
        (length (filter is_open (held_trades self)) <= 1)%nat).
Proof.
  split.
  - intros self trade signal mq up dn now Ha.
    unfold Portfolio.consider_entry. rewrite Ha. reflexivity.
  - intros self R. apply reachable_well_formed in R. destruct R as [_ Hc].
    unfold held_trades. rewrite filter_app, (no_open_among_settled _ Hc), app_nil_r.
    destruct (Portfolio.active_trade self) as [t | ]; cbn; [ | lia ].
    destruct (is_open t); cbn; lia.
Qed.

Lemma consider_entry_refused_while_active_witness :
  Portfolio.consider_entry holding (up_signal 99) "SOL up or down?" 0.9 0.1 "12:00:05"
  = Portfolio.done false holding []
  /\ (length (filter is_open (held_trades holding)) <= 1)%nat.
Proof.
  split.
  - eapply (proj1 consider_entry_refused_while_active). vm_compute. reflexivity.
  - apply (proj2 consider_entry_refused_while_active holding reachable_holding).
Defined.

(** ** The entry gate *)

(** What [consider_entry] does once the active-trade and capital guards are
    passed and the label is directional. *)
Lemma consider_entry_gate self signal market_question up_price down_price now :
  Portfolio.active_trade self = None ->
  (Portfolio.capital self <? 1.0)%float = false ->
  Portfolio.is_directional (Signal.label signal) = true ->
  let direction := normalize (Signal.label signal) in
  let streak := Portfolio.track (Portfolio._signal_streak self) direction in
  let entry_price := if (direction =? "UP")%string then up_price else down_price in
  let o := Portfolio.consider_entry self signal market_question up_price down_price now in
  if (Streak.count streak <? ENTRY_AFTER_N)
     || (Signal.confidence signal <? MIN_CONFIDENCE)
     || (entry_price <=? 0.01)%float
  then o = Portfolio.done false (Portfolio.set_streak self streak) []
  else Portfolio.returned o = true /\
       exists trade,
         Portfolio.active_trade (Portfolio.self_after o) = Some trade /\
         Trade.entry_price trade = entry_price /\
         Trade.status trade = "OPEN"%string.
Proof.
  intros Ha Hc Hd. unfold Portfolio.consider_entry, normalize.
  rewrite Ha, Hc, Hd. cbv zeta.
  cbn [negb Portfolio._signal_streak Portfolio.set_streak].
  destruct (_ <? ENTRY_AFTER_N); cbn [orb]; [ reflexivity | ].
  destruct (_ <? MIN_CONFIDENCE); cbn [orb]; [ reflexivity | ].
  destruct (_ <=? 0.01)%float; [ reflexivity | ].
  split; [ reflexivity | ].
  eexists. cbn [Portfolio.self_after Portfolio.active_trade].
  split; [ reflexivity | split; reflexivity ].
Qed.

(** C9. Whenever [consider_entry] returns false, capital, initial capital,
    stake fraction, active trade, closed trades, P&L history and trade
    counter are unchanged and nothing is written; only the signal streak may
    differ: it is untouched when the active-trade or capital guard refuses,
    reset by a non-directional label, and otherwise the tracked streak
    (incremented or restarted), which a refusal on the streak, confidence or
    price guard keeps. *)
Theorem consider_entry_refusal_frame :
  forall self signal market_question up_price down_price now,
    let o := Portfolio.consider_entry self signal market_question up_price down_price now in
    let self' := Portfolio.self_after o in
    Portfolio.returned o = false ->
    Portfolio.capital self' = Portfolio.capital self /\
    Portfolio.initial_capital self' = Portfolio.initial_capital self /\
    Portfolio.trade_pct self' = Portfolio.trade_pct self /\
    Portfolio.active_trade self' = Portfolio.active_trade self /\
    Portfolio.closed_trades self' = Portfolio.closed_trades self /\
    Portfolio.pnl_history self' = Portfolio.pnl_history self /\
    Portfolio._trade_counter self' = Portfolio._trade_counter self /\
    Portfolio.db_calls o = [] /\
    Portfolio._signal_streak self' =
      match Portfolio.active_trade self with
      | Some _ => Portfolio._signal_streak self
      | None =>
          if (Portfolio.capital self <? 1.0)%float then Portfolio._signal_streak self
          else if Portfolio.is_directional (Signal.label signal)
               then Portfolio.track (Portfolio._signal_streak self)
                                    (normalize (Signal.label signal))
               else Streak.empty
      end.
Proof.
  intros self signal mq up dn now o self' Hr.
  destruct (Portfolio.active_trade self) as [t | ] eqn:Ha.
  { subst self' o. unfold Portfolio.consider_entry. rewrite Ha. cbn.
    rewrite Ha. repeat split; reflexivity. }
  destruct (Portfolio.capital self <? 1.0)%float eqn:Hc.
  { subst self' o. unfold Portfolio.consider_entry. rewrite Ha, Hc. cbn.
    rewrite Ha. repeat split; reflexivity. }
  destruct (Portfolio.is_directional (Signal.label signal)) eqn:Hd.
  - pose proof (consider_entry_gate self signal mq up dn now Ha Hc Hd) as G.
    cbv zeta in G. fold o in G.
    destruct (_ || _ || _) in G.
    + subst self'. rewrite G. cbn. rewrite Ha. repeat split; reflexivity.
    + destruct G as [G _]. congruence.
  - subst self' o. unfold Portfolio.consider_entry. rewrite Ha, Hc, Hd. cbn.
    rewrite Ha. repeat split; reflexivity.
Qed.

Lemma consider_entry_refusal_frame_witness :
  let o := Portfolio.consider_entry (tick 70 (tick 70 (tick 70 fresh)))
             (up_signal 70) "SOL up or down?" 0.01 0.99 "12:00:05" in
  Portfolio.returned o = false /\
  Portfolio.capital (Portfolio.self_after o) = 100.0%float /\
  Portfolio.active_trade (Portfolio.self_after o) = None /\
  Portfolio._signal_streak (Portfolio.self_after o) = Streak.make (Some "UP"%string) 4.
Proof.
  cbv zeta.
  assert (Hr : Portfolio.returned
                 (Portfolio.consider_entry (tick 70 (tick 70 (tick 70 fresh)))
                    (up_signal 70) "SOL up or down?" 0.01 0.99 "12:00:05") = false)
    by (vm_compute; reflexivity).
  pose proof (consider_entry_refusal_frame _ _ _ _ _ _ Hr) as F.
  cbv zeta in F.
  destruct F as (Fc & _ & _ & Fa & _ & _ & _ & _ & Fs).
  split; [ exact Hr | ].
  split; [ rewrite Fc; vm_compute; reflexivity | ].
  split; [ rewrite Fa; vm_compute; reflexivity | ].
  rewrite Fs. vm_compute. reflexivity.
Defined.

Lemma track_same label count :
  Portfolio.track (Streak.make (Some label) count) label
  = Streak.make (Some label) (count + 1).
Proof. unfold Portfolio.track; cbn. rewrite String.eqb_refl. reflexivity. Qed.

(** A refused UP signal of confidence 99 below the streak length: the call
    returns false and the portfolio only gets the tracked streak. *)
Lemma up_signal_below_streak self market_question up_price down_price now :
  Portfolio.active_trade self = None ->
  (Portfolio.capital self <? 1.0)%float = false ->
  Streak.count (Portfolio.track (Portfolio._signal_streak self) "UP") < ENTRY_AFTER_N ->
  Portfolio.consider_entry self (up_signal 99) market_question up_price down_price now
  = Portfolio.done false
      (Portfolio.set_streak self (Portfolio.track (Portfolio._signal_streak self) "UP")) [].
Proof.
  intros Ha Hc Hn.
  pose proof (consider_entry_gate self (up_signal 99) market_question
                up_price down_price now Ha Hc eq_refl) as G.
  cbv zeta in G.
  change (normalize (Signal.label (up_signal 99))) with "UP"%string in G.
  apply Z.ltb_lt in Hn. rewrite Hn in G. exact G.
Qed.

(** C3. From an empty streak, with no active trade and capital of at least
    1.0, three consecutive UP signals of confidence 99 are all refused, and
    the fourth is accepted when the UP price is above 0.01; and whenever
    [consider_entry] returns true, the label is directional, the streak
    counting the entering signal has reached [ENTRY_AFTER_N] = 4 and the
    signal's confidence is at least [MIN_CONFIDENCE] = 65. *)
Theorem streak_gate :
  (forall self m1 u1 d1 t1 m2 u2 d2 t2 m3 u3 d3 t3 m4 u4 d4 t4,
      Portfolio.active_trade self = None ->
      Portfolio._signal_streak self = Streak.empty ->
      (1.0 <=? Portfolio.capital self)%float = true ->
      (0.01 <? u4)%float = true ->
      let o1 := Portfolio.consider_entry self (up_signal 99) m1 u1 d1 t1 in
      let o2 := Portfolio.consider_entry (Portfolio.self_after o1) (up_signal 99) m2 u2 d2 t2 in
      let o3 := Portfolio.consider_entry (Portfolio.self_after o2) (up_signal 99) m3 u3 d3 t3 in
      let o4 := Portfolio.consider_entry (Portfolio.self_after o3) (up_signal 99) m4 u4 d4 t4 in
      Portfolio.returned o1 = false /\ Portfolio.returned o2 = false /\
      Portfolio.returned o3 = false /\ Portfolio.returned o4 = true)
  /\ (forall self signal market_question up_price down_price now,
        Portfolio.returned
          (Portfolio.consider_entry self signal market_question up_price down_price now)
        = true ->
        Portfolio.is_directional (Signal.label signal) = true /\
        ENTRY_AFTER_N <= Streak.count (Portfolio.track (Portfolio._signal_streak self)
                                                       (normalize (Signal.label signal))) /\
        MIN_CONFIDENCE <= Signal.confidence signal).
Proof.
  split.
  - intros self m1 u1 d1 t1 m2 u2 d2 t2 m3 u3 d3 t3 m4 u4 d4 t4 Ha Hs Hc Hp.
    apply leb_true_ltb_false in Hc. apply ltb_true_leb_false in Hp.
    cbv zeta.
    rewrite (up_signal_below_streak self m1 u1 d1 t1 Ha Hc)
      by (rewrite Hs; vm_compute; reflexivity).
    rewrite Hs. cbn [Portfolio.self_after].
    change (Portfolio.track Streak.empty "UP") with (Streak.make (Some "UP"%string) 1).
    set (s1 := Portfolio.set_streak self (Streak.make (Some "UP"%string) 1)).
    rewrite (up_signal_below_streak s1 m2 u2 d2 t2 Ha Hc)
      by (subst s1; cbn [Portfolio._signal_streak Portfolio.set_streak];
          rewrite track_same; vm_compute; reflexivity).
    subst s1. cbn [Portfolio.self_after Portfolio._signal_streak Portfolio.set_streak].
    rewrite track_same.
    set (s2 := Portfolio.set_streak _ (Streak.make (Some "UP"%string) (1 + 1))).
    rewrite (up_signal_below_streak s2 m3 u3 d3 t3 Ha Hc)
      by (subst s2; cbn [Portfolio._signal_streak Portfolio.set_streak];
          rewrite track_same; vm_compute; reflexivity).
    subst s2.
    cbn [Portfolio.self_after Portfolio._signal_streak Portfolio.set_streak Portfolio.returned].
    rewrite track_same.
    set (s3 := Portfolio.set_streak _ (Streak.make (Some "UP"%string) (1 + 1 + 1))).
    repeat (split; [ reflexivity | ]).
    pose proof (consider_entry_gate s3 (up_signal 99) m4 u4 d4 t4 Ha Hc eq_refl) as G.
    cbv zeta in G.
    change (normalize (Signal.label (up_signal 99))) with "UP"%string in G.
    subst s3. cbn [Portfolio._signal_streak Portfolio.set_streak] in G.
    rewrite track_same in G.
    change (("UP" =? "UP")%string) with true in G. cbv iota in G.
    rewrite Hp in G.
    change (Streak.count (Streak.make (Some "UP"%string) (1 + 1 + 1 + 1)) <? ENTRY_AFTER_N)
      with false in G.
    change (Signal.confidence (up_signal 99) <? MIN_CONFIDENCE) with false in G.
    cbn [orb] in G. exact (proj1 G).
  - intros self signal mq up dn now Hr.
    destruct (Portfolio.active_trade self) as [t | ] eqn:Ha.
    { unfold Portfolio.consider_entry in Hr. rewrite Ha in Hr. discriminate. }
    destruct (Portfolio.capital self <? 1.0)%float eqn:Hc.
    { unfold Portfolio.consider_entry in Hr. rewrite Ha, Hc in Hr. discriminate. }
    destruct (Portfolio.is_directional (Signal.label signal)) eqn:Hd.
    2: { unfold Portfolio.consider_entry in Hr. rewrite Ha, Hc, Hd in Hr. discriminate. }
    pose proof (consider_entry_gate self signal mq up dn now Ha Hc Hd) as G.
    cbv zeta in G.
    destruct (Streak.count _ <? ENTRY_AFTER_N) eqn:E1.
    { cbn [orb] in G. rewrite G in Hr. discriminate. }
    destruct (Signal.confidence signal <? MIN_CONFIDENCE) eqn:E2.
    { cbn [orb] in G. rewrite G in Hr. discriminate. }
    apply Z.ltb_ge in E1, E2. auto.
Qed.

Lemma streak_gate_witness :
  let ask self := Portfolio.consider_entry self (up_signal 99) "SOL up or down?"
                                           0.40 0.60 "12:00:00" in
  let o1 := ask fresh in
  let o2 := ask (Portfolio.self_after o1) in
  let o3 := ask (Portfolio.self_after o2) in
  let o4 := ask (Portfolio.self_after o3) in
  (Portfolio.returned o1 = false /\ Portfolio.returned o2 = false /\
   Portfolio.returned o3 = false /\ Portfolio.returned o4 = true)
  /\ ENTRY_AFTER_N <= Streak.count
                        (Portfolio.track (Portfolio._signal_streak (Portfolio.self_after o3)) "UP")
  /\ MIN_CONFIDENCE <= 99.
Proof.
  cbv zeta. split.
  - apply (proj1 streak_gate fresh); vm_compute; reflexivity.
  - refine (proj2 (proj2 streak_gate _ (up_signal 99) "SOL up or down?"%string
                     0.40%float 0.60%float "12:00:00"%string _)).
    vm_compute. reflexivity.
Defined.

(** ** The entry-price boundary *)

(** C7. In a call that passes the active-trade, capital, directional-label
    and streak/confidence guards, an entry price of exactly 0.01 on the
    chosen side is refused and no trade is created, while an entry price of
    0.0101 is accepted and the trade is opened at that price. *)
Theorem entry_price_boundary :
  forall self signal market_question up_price down_price now,
    Portfolio.active_trade self = None ->
    (Portfolio.capital self <? 1.0)%float = false ->
    Portfolio.is_directional (Signal.label signal) = true ->
    let direction := normalize (Signal.label signal) in
    ENTRY_AFTER_N <= Streak.count (Portfolio.track (Portfolio._signal_streak self) direction) ->
    MIN_CONFIDENCE <= Signal.confidence signal ->
    let entry_price := if (direction =? "UP")%string then up_price else down_price in
    let o := Portfolio.consider_entry self signal market_question up_price down_price now in
    (entry_price = 0.01%float ->
       Portfolio.returned o = false /\
       Portfolio.active_trade (Portfolio.self_after o) = None /\
       Portfolio._trade_counter (Portfolio.self_after o) = Portfolio._trade_counter self /\
       Portfolio.db_calls o = [])
    /\ (entry_price = 0.0101%float ->
          Portfolio.returned o = true /\
          exists trade,
            Portfolio.active_trade (Portfolio.self_after o) = Some trade /\
            Trade.entry_price trade = 0.0101%float /\
            Trade.status trade = "OPEN"%string).
Proof.
  intros self signal mq up dn now Ha Hc Hd direction Hn Hm entry_price o.
  pose proof (consider_entry_gate self signal mq up dn now Ha Hc Hd) as G.
  cbv zeta in G. fold direction in G. fold entry_price in G. fold o in G.
  apply Z.ltb_ge in Hn, Hm. rewrite Hn, Hm in G. cbn [orb] in G.
  split; intros E; rewrite E in G.
  - assert (B : (0.01 <=? 0.01)%float = true) by (vm_compute; reflexivity).
    rewrite B in G. rewrite G. cbn. rewrite Ha. repeat split; reflexivity.
  - assert (B : (0.0101 <=? 0.01)%float = false) by (vm_compute; reflexivity).
    rewrite B in G. exact G.
Qed.

Lemma entry_price_boundary_witness :
  let ready := tick 70 (tick 70 (tick 70 fresh)) in
  Portfolio.returned
    (Portfolio.consider_entry ready (up_signal 70) "SOL up or down?" 0.01 0.99 "12:00:05")
  = false
  /\ Portfolio.returned
       (Portfolio.consider_entry ready (up_signal 70) "SOL up or down?" 0.0101 0.9899 "12:00:05")
     = true.
Proof.
  cbv zeta. split.
  - refine (proj1 (proj1 (entry_price_boundary (tick 70 (tick 70 (tick 70 fresh)))
                            (up_signal 70) "SOL up or down?"%string
                            0.01%float 0.99%float "12:00:05"%string _ _ _ _ _) _));
      vm_compute; first [ reflexivity | discriminate ].
  - refine (proj1 (proj2 (entry_price_boundary (tick 70 (tick 70 (tick 70 fresh)))
                            (up_signal 70) "SOL up or down?"%string
                            0.0101%float 0.9899%float "12:00:05"%string _ _ _ _ _) _));
      vm_compute; first [ reflexivity | discriminate ].
Defined.

(** ** Resolution *)

(** The outcome [close_trade] settles on. *)
Lemma close_trade_active self up_price down_price force_winner trade :
  Portfolio.active_trade self = Some trade ->
  let won := match force_winner with
             | Some forced => forced
             | None => (0.5 <=? held_side_price trade up_price down_price)%float
             end in
  let pnl := fst (Trade.close trade won (if won then 1.0 else 0.0)%float) in
  let resolved := snd (Trade.close trade won (if won then 1.0 else 0.0)%float) in
  let capital' := Py.round (Portfolio.capital self + Trade.bet_size trade + pnl) 4 in
  let history :=
    (Portfolio.pnl_history self
     ++ [Py.round (Py.round (capital' - Portfolio.initial_capital self) 4) 4])%list in
  Portfolio.close_trade self up_price down_price force_winner
  = Portfolio.done (Some resolved)
      (Portfolio.make (Portfolio.initial_capital self) capital' (Portfolio.trade_pct self)
         None (Portfolio.closed_trades self ++ [resolved]) history
         (Portfolio._trade_counter self) (Portfolio._db self) Streak.empty)
      (if Portfolio._db self
       then [Db.SaveTrade resolved;
             Db.SavePortfolioState capital' (Portfolio.initial_capital self) history
                                   (Portfolio._trade_counter self)]
       else []).
Proof.
  intros Ha. unfold Portfolio.close_trade, held_side_price. rewrite Ha.
  destruct force_winner as [[ | ] | ]; cbv zeta; try reflexivity.
  destruct (Trade.direction trade =? "UP")%string; reflexivity.
Qed.

(** C6. Without an active trade [close_trade] returns [None], changes
    nothing and writes nothing.  With one, a supplied [force_winner] alone
    decides the win; without it the held side wins exactly when its final
    price is at least 0.5; and the resolved trade gets exit price 1.0 and
    status WIN on a win, exit price 0.0 and status LOSS on a loss, whatever
    the prices passed. *)
Theorem close_trade_resolution :
  forall self up_price down_price force_winner,
    match Portfolio.active_trade self with
    | None =>
        Portfolio.close_trade self up_price down_price force_winner
        = Portfolio.done None self []
    | Some trade =>
        let won := match force_winner with
                   | Some forced => forced
                   | None => (0.5 <=? held_side_price trade up_price down_price)%float
                   end in
        let o := Portfolio.close_trade self up_price down_price force_winner in
        exists resolved,
          Portfolio.returned o = Some resolved /\
          Trade.exit_price resolved = Some (if won then 1.0 else 0.0)%float /\
          Trade.status resolved = (if won then "WIN" else "LOSS")%string /\
          Portfolio.active_trade (Portfolio.self_after o) = None /\
          Portfolio.closed_trades (Portfolio.self_after o)
          = (Portfolio.closed_trades self ++ [resolved])%list
    end.
Proof.
  intros self up dn fw.
  destruct (Portfolio.active_trade self) as [trade | ] eqn:Ha.
  - cbv zeta. rewrite (close_trade_active self up dn fw trade Ha).
    eexists. cbn [Portfolio.returned Portfolio.self_after Portfolio.active_trade
                  Portfolio.closed_trades].
    split; [ reflexivity | ].
    unfold Trade.close. cbn [snd Trade.exit_price Trade.status].
    repeat split; reflexivity.
  - unfold Portfolio.close_trade. rewrite Ha. reflexivity.
Qed.

(** ** Capital at resolution *)

(** C1, as the code has it.  A call to [close_trade] with an active trade
    resolves it as WIN or LOSS; the P&L is [round(shares - bet_size, 4)] on a
    WIN and [round(-bet_size, 4)] on a LOSS; and in both cases the resulting
    capital is the previous capital plus the stake plus the P&L, rounded to
    four decimals. *)
Theorem capital_at_resolution :
  forall self up_price down_price force_winner trade,
    Portfolio.active_trade self = Some trade ->
    let o := Portfolio.close_trade self up_price down_price force_winner in
    exists resolved pnl,
      Portfolio.returned o = Some resolved /\
      Trade.pnl resolved = Some pnl /\
      Trade.bet_size resolved = Trade.bet_size trade /\
      (Trade.status resolved = "WIN"%string /\
         pnl = Py.round (Trade.shares trade - Trade.bet_size trade) 4
       \/ Trade.status resolved = "LOSS"%string /\
          pnl = Py.round (- Trade.bet_size trade) 4) /\
      Portfolio.capital (Portfolio.self_after o)
      = Py.round (Portfolio.capital self + Trade.bet_size trade + pnl) 4.
Proof.
  intros self up dn fw trade Ha. cbv zeta.
  rewrite (close_trade_active self up dn fw trade Ha).
  cbn [Portfolio.returned Portfolio.self_after Portfolio.capital].
  set (won := match fw with
              | Some forced => forced
              | None => (0.5 <=? held_side_price trade up dn)%float
              end).
  exists (snd (Trade.close trade won (if won then 1.0 else 0.0)%float)),
         (fst (Trade.close trade won (if won then 1.0 else 0.0)%float)).
  unfold Trade.close. cbn [fst snd Trade.pnl Trade.bet_size Trade.status].
  repeat (split; [ reflexivity | ]).
  split; [ | reflexivity ].
  destruct won.
  - left. split; [ reflexivity | ]. rewrite mul_one. reflexivity.
  - right. split; reflexivity.
Qed.

Lemma capital_at_resolution_witness :
  exists resolved pnl,
    Portfolio.returned (Portfolio.close_trade holding 0.97 0.03 None) = Some resolved /\
    Trade.pnl resolved = Some pnl /\
    Portfolio.capital (Portfolio.self_after (Portfolio.close_trade holding 0.97 0.03 None))
    = Py.round (100.0 + 2.0 + pnl) 4.
Proof.
  destruct (capital_at_resolution holding 0.97 0.03 None
              (Trade.make 1 "SOL up or down?" "UP" 0.40 5.0 2.0 "12:00:00" None None "OPEN"))
    as (resolved & pnl & Hr & Hp & _ & _ & Hc).
  - vm_compute. reflexivity.
  - exists resolved, pnl. split; [ exact Hr | ]. split; [ exact Hp | ].
    rewrite Hc. reflexivity.
Defined.

(** C1 as stated fails: the portfolio built with capital 100.00001 resolves
    its trade as a LOSS, and the resulting capital is 100.0, not the previous
    capital. *)
Lemma capital_changes_on_loss :
  let o := Portfolio.close_trade holding_fine 0.03 0.97 None in
  option_map Trade.status (Portfolio.returned o) = Some "LOSS"%string /\
  Portfolio.capital holding_fine = 100.00001%float /\
  Portfolio.capital (Portfolio.self_after o) = 100.0%float /\
  (Portfolio.capital (Portfolio.self_after o) =? Portfolio.capital holding_fine)%float = false.
Proof. vm_compute. repeat split; reflexivity. Qed.

(** ** Trades once resolved *)

(** Each method keeps the closed trades it found, in place, and appends at
    most one. *)
Lemma step_extends_closed self self' :
  step self self' ->
  exists added,
    Portfolio.closed_trades self' = (Portfolio.closed_trades self ++ added)%list.
Proof.
  intros St. destruct St as [self sg mq up dn now | self up dn fw | self].
  - exists []. rewrite app_nil_r.
    destruct (consider_entry_cases self sg mq up dn now)
      as [(_ & st & E) | (_ & _ & Ec & _)].
    + rewrite E. reflexivity.
    + exact Ec.
  - destruct (Portfolio.active_trade self) as [trade | ] eqn:Ha.
    + rewrite (close_trade_active self up dn fw trade Ha). cbn. eexists. reflexivity.
    + unfold Portfolio.close_trade. rewrite Ha. exists []. cbn. symmetry. apply app_nil_r.
  - unfold Portfolio.cancel_active_trade.
    destruct (Portfolio.active_trade self) as [trade | ]; cbn.
    + eexists. reflexivity.
    + exists []. symmetry. apply app_nil_r.
Qed.

Lemma later_keeps_closed self self' :
  later self self' ->
  forall i trade,
    nth_error (Portfolio.closed_trades self) i = Some trade ->
    nth_error (Portfolio.closed_trades self') i = Some trade.
Proof.
  induction 1 as [self | self self' self'' _ IH St]; intros i trade Hi.
  - exact Hi.
  - destruct (step_extends_closed self' self'' St) as [added E].
    rewrite E. rewrite nth_error_app1.
    + apply IH, Hi.
    + apply nth_error_Some. rewrite (IH i trade Hi). discriminate.
Qed.

Lemma unresolved_shape trade :
  unresolved trade ->
  (Trade.status trade = "OPEN"%string ->
     Trade.exit_price trade = None /\ Trade.pnl trade = None) /\
  (Trade.exit_price trade = None <-> Trade.pnl trade = None) /\
  (Trade.exit_price trade = None <->
     Trade.status trade = "OPEN"%string \/ Trade.status trade = "CANCELLED"%string).
Proof. intros (Hs & He & Hp). repeat split; auto. Qed.

Lemma settled_shape trade :
  settled trade ->
  (Trade.status trade = "OPEN"%string ->
     Trade.exit_price trade = None /\ Trade.pnl trade = None) /\
  (Trade.exit_price trade = None <-> Trade.pnl trade = None) /\
  (Trade.exit_price trade = None <->
     Trade.status trade = "OPEN"%string \/ Trade.status trade = "CANCELLED"%string).
Proof.
  intros [([Hs | Hs] & He & Hp) | (Hs & He & Hp)]; rewrite Hs;
    repeat split; intros; auto; try discriminate; try contradiction;
    try (destruct H; discriminate).
Qed.

(** C4, as the code has it.  For every trade held by a portfolio reached
    from the constructor through [consider_entry], [close_trade] and
    [cancel_active_trade]: an OPEN trade has neither exit price nor P&L; the
    exit price is null exactly when the P&L is null; they are null exactly
    for OPEN and CANCELLED trades (a cancellation sets the status and records
    neither); a trade that is no longer OPEN sits in the closed trades; and
    a closed trade keeps its place and all its fields through every later
    method call. *)
Theorem trade_resolution_invariant :
  forall self,
    reachable self ->
    (forall trade,
        In trade (held_trades self) ->
        (Trade.status trade = "OPEN"%string ->
           Trade.exit_price trade = None /\ Trade.pnl trade = None) /\
        (Trade.exit_price trade = None <-> Trade.pnl trade = None) /\
        (Trade.exit_price trade = None <->
           Trade.status trade = "OPEN"%string \/ Trade.status trade = "CANCELLED"%string) /\
        (is_open trade = false -> In trade (Portfolio.closed_trades self)))
    /\ (forall self' i trade,
          later self self' ->
          nth_error (Portfolio.closed_trades self) i = Some trade ->
          nth_error (Portfolio.closed_trades self') i = Some trade).
Proof.
  intros self R. split.
  - intros trade Hin. destruct (reachable_well_formed self R) as [Ha Hc].
    unfold held_trades in Hin. apply in_app_or in Hin. destruct Hin as [Hin | Hin].
    + destruct (Portfolio.active_trade self) as [t | ] eqn:Et; [ | contradiction ].
      destruct Hin as [<- | []]. specialize (Ha t eq_refl).
      destruct (unresolved_shape t Ha) as (S1 & S2 & S3).
      repeat (split; [ assumption | ]).
      intros Hn. unfold is_open in Hn. destruct Ha as (Hs & _). rewrite Hs in Hn.
      discriminate.
    + rewrite Forall_forall in Hc. specialize (Hc trade Hin).
      destruct (settled_shape trade Hc) as (S1 & S2 & S3).
      repeat (split; [ assumption | ]). intros _. exact Hin.
  - intros self' i trade L. exact (later_keeps_closed self self' L i trade).
Qed.

Lemma trade_resolution_invariant_witness :
  let closed := Portfolio.self_after (Portfolio.close_trade holding 0.97 0.03 None) in
  (forall trade,
      In trade (held_trades closed) ->
      (Trade.exit_price trade = None <-> Trade.pnl trade = None))
  /\ nth_error (Portfolio.closed_trades (tick 70 closed)) 0
     = nth_error (Portfolio.closed_trades closed) 0.
Proof.
  cbv zeta.
  assert (R : reachable (Portfolio.self_after (Portfolio.close_trade holding 0.97 0.03 None)))
    by (eapply reachable_step; [ exact reachable_holding | apply step_close_trade ]).
  destruct (trade_resolution_invariant _ R) as [Shape Keep].
  split.
  - intros trade Hin. exact (proj1 (proj2 (Shape trade Hin))).
  - destruct (nth_error (Portfolio.closed_trades
                           (Portfolio.self_after (Portfolio.close_trade holding 0.97 0.03 None))) 0)
      as [trade | ] eqn:E.
    + apply (Keep (tick 70 _) 0%nat trade); [ | exact E ].
      eapply later_step; [ apply later_now | apply step_consider_entry ].
    + vm_compute in E. discriminate.
Defined.

(** C4 as stated fails: cancelling the open trade of the default portfolio
    leaves a trade whose status is CANCELLED, not OPEN, with exit price and
    P&L still null. *)
Lemma cancelled_trade_stays_unpriced :
  let self := Portfolio.self_after (Portfolio.cancel_active_trade holding) in
  reachable self /\
  exists trade,
    Portfolio.closed_trades self = [trade] /\
    Trade.status trade = "CANCELLED"%string /\
    is_open trade = false /\
    Trade.exit_price trade = None /\
    Trade.pnl trade = None.
Proof.
  cbv zeta. split.
  - eapply reachable_step; [ exact reachable_holding | apply step_cancel_active_trade ].
  - eexists. vm_compute. repeat split; reflexivity.
Qed.

(** ** The persistence store *)

Section Store.














End Store.



(** ** The report *)

Section Report.

(** The best/worst candidates are the P&Ls that are not zero. *)
Lemma extreme_terms_nonzero closed :
  Forall (fun v => (v =? 0)%float = false) (Portfolio.extreme_terms closed).
Proof.
  unfold Portfolio.extreme_terms. induction closed as [ | t closed IH]; cbn; [ constructor | ].
  apply Forall_app. split; [ | exact IH ].
  destruct (Trade.pnl t) as [v | ]; cbn; [ | constructor ].
  destruct (v =? 0)%float eqn:E; cbn; constructor; [ exact E | constructor ].
Qed.

Lemma in_realized_terms closed trade v :
  In trade closed -> Trade.pnl trade = Some v -> In v (Portfolio.realized_terms closed).
Proof.
  intros Hin Hp. unfold Portfolio.realized_terms. apply in_flat_map.
  exists trade. split; [ exact Hin | ]. rewrite Hp. left. reflexivity.
Qed.

Lemma in_extreme_terms closed trade v :
  In trade closed -> Trade.pnl trade = Some v -> (v =? 0)%float = false ->
  In v (Portfolio.extreme_terms closed).
Proof.
  intros Hin Hp Hv. unfold Portfolio.extreme_terms. apply in_flat_map.
  exists trade. split; [ exact Hin | ]. rewrite Hp. cbn. rewrite Hv. left. reflexivity.
Qed.

Lemma extreme_terms_all_falsy closed :
  (forall trade, In trade closed -> PyNum.truthy (Trade.pnl trade) = false) ->
  Portfolio.extreme_terms closed = [].
Proof.
  unfold Portfolio.extreme_terms. induction closed as [ | t closed IH]; intros H; [ reflexivity | ].
  cbn [flat_map]. rewrite (H t (or_introl eq_refl)). cbn.
  apply IH. intros trade Hin. apply H. right. exact Hin.
Qed.

(** [stats] returns a report unless the initial capital is a zero. *)
Lemma stats_returns self up_price down_price :
  (Portfolio.initial_capital self =? 0)%float = false ->
  exists report, Portfolio.stats self up_price down_price = Some report.
Proof.
  intros H. unfold Portfolio.stats, PyNum.div. cbn [PyNum.to_float].
  rewrite H. eexists. reflexivity.
Qed.

End Report.

(** C10.  In every report [stats] returns, best and worst trade are the
    maximum and minimum over the closed trades' P&Ls that are truthy, none of
    which is a zero, so a resolved trade whose P&L is exactly 0.0 takes no
    part in them, and when every closed trade has P&L 0.0 or no P&L both are
    the integer 0; the realized P&L is the sum over the P&Ls that are not
    null, which has a term for every such trade, the zero ones included. *)
Theorem zero_pnl_excluded_from_extremes :
  forall self up_price down_price report,
    Portfolio.stats self up_price down_price = Some report ->
    let closed := Portfolio.closed_trades self in
    Portfolio.r_best_trade report
    = PyNum.round (PyNum.max (Portfolio.extreme_terms closed) (PyNum.Int 0)) 4 /\
    Portfolio.r_worst_trade report
    = PyNum.round (PyNum.min (Portfolio.extreme_terms closed) (PyNum.Int 0)) 4 /\
    Portfolio.r_realized_pnl report
    = PyNum.round (PyNum.sum (Portfolio.realized_terms closed)) 4 /\
    Forall (fun v => (v =? 0)%float = false) (Portfolio.extreme_terms closed) /\
    (forall trade v,
        In trade closed -> Trade.pnl trade = Some v ->
        In v (Portfolio.realized_terms closed) /\
        (In v (Portfolio.extreme_terms closed) <-> (v =? 0)%float = false)) /\
    ((forall trade, In trade closed ->
                    Trade.pnl trade = Some 0.0%float \/ Trade.pnl trade = None) ->
     Portfolio.r_best_trade report = PyNum.Int 0 /\
     Portfolio.r_worst_trade report = PyNum.Int 0).
Proof.
  intros self up dn report Hs closed.
  unfold Portfolio.stats in Hs.
  destruct (PyNum.div _ _) as [ratio | ]; [ | discriminate ].
  injection Hs as <-. cbn [Portfolio.r_best_trade Portfolio.r_worst_trade
                          Portfolio.r_realized_pnl]. fold closed.
  repeat (split; [ reflexivity | ]).
  split; [ apply extreme_terms_nonzero | ].
  split.
  - intros trade v Hin Hp. split; [ exact (in_realized_terms closed trade v Hin Hp) | ].
    split.
    + intros Hv. pose proof (extreme_terms_nonzero closed) as F.
      rewrite Forall_forall in F. exact (F v Hv).
    + exact (in_extreme_terms closed trade v Hin Hp).
  - intros Hall. rewrite extreme_terms_all_falsy; [ split; reflexivity | ].
    intros trade Hin. destruct (Hall trade Hin) as [-> | ->]; reflexivity.
Qed.

Lemma zero_pnl_excluded_from_extremes_witness :
  exists report,
    Portfolio.stats break_even 0.5 0.5 = Some report /\
    Portfolio.r_best_trade report = PyNum.Int 0 /\
    Portfolio.r_worst_trade report = PyNum.Int 0 /\
    In 0.0%float (Portfolio.realized_terms (Portfolio.closed_trades break_even)).
Proof.
  destruct (stats_returns break_even 0.5 0.5) as [report Hr]; [ vm_compute; reflexivity | ].
  exists report. split; [ exact Hr | ].
  destruct (zero_pnl_excluded_from_extremes break_even 0.5 0.5 report Hr)
    as (_ & _ & _ & _ & Hin & Hzero).
  assert (Hc : Portfolio.closed_trades break_even
               = [Trade.make 1 "SOL up or down?" "UP" 1.0 2.0 2.0 "12:00:00"
                             (Some 1.0%float) (Some 0.0%float) "WIN"])
    by (vm_compute; reflexivity).
  destruct Hzero as [Hb Hw].
  { intros trade Ht. rewrite Hc in Ht. destruct Ht as [<- | []]. left. reflexivity. }
  split; [ exact Hb | ]. split; [ exact Hw | ].
  refine (proj1 (Hin _ _ _ _)).
  - rewrite Hc. left. reflexivity.
  - reflexivity.
Defined.

(** ** The P&L history *)

(** C5. A call to [close_trade] that resolves a trade appends exactly one
    element to the P&L history, equal to [round(capital - initial_capital, 4)]
    on the capital after its update; a call without an active trade leaves
    the history as it is, and so do [cancel_active_trade] and
    [consider_entry] (the remaining methods, [stats], [get_unrealized] and
    [current_price_for_trade], return values and no new state). *)
Theorem pnl_history_discipline :
  forall self,
    (forall up_price down_price force_winner,
        let self' := Portfolio.self_after
                       (Portfolio.close_trade self up_price down_price force_winner) in
        match Portfolio.active_trade self with
        | Some _ =>
            Portfolio.pnl_history self'
            = (Portfolio.pnl_history self
               ++ [Py.round (Portfolio.capital self' - Portfolio.initial_capital self') 4])%list
        | None => Portfolio.pnl_history self' = Portfolio.pnl_history self
        end)
    /\ Portfolio.pnl_history (Portfolio.self_after (Portfolio.cancel_active_trade self))
       = Portfolio.pnl_history self
    /\ (forall signal market_question up_price down_price now,
          Portfolio.pnl_history
            (Portfolio.self_after
               (Portfolio.consider_entry self signal market_question up_price down_price now))
          = Portfolio.pnl_history self).
Proof.
  intros self. split; [ | split ].
  - intros up dn fw self'. subst self'.
    destruct (Portfolio.active_trade self) as [trade | ] eqn:Ha.
    + rewrite (close_trade_active self up dn fw trade Ha).
      cbn [Portfolio.self_after Portfolio.pnl_history Portfolio.capital
           Portfolio.initial_capital].
      rewrite round4_idempotent. reflexivity.
    + unfold Portfolio.close_trade. rewrite Ha. reflexivity.
  - unfold Portfolio.cancel_active_trade.
    destruct (Portfolio.active_trade self); reflexivity.
  - intros sg mq up dn now.
    destruct (consider_entry_cases self sg mq up dn now) as [(_ & st & E) | (Hr & Ha & _)].
    + rewrite E. reflexivity.
    + unfold Portfolio.consider_entry in Hr |- *. rewrite Ha in Hr |- *.
      destruct (Portfolio.capital self <? 1)%float; [ discriminate | ].
      destruct (negb _); [ discriminate | ].
      cbv zeta in Hr |- *.
      destruct (_ <? ENTRY_AFTER_N); [ discriminate | ].
      destruct (_ <? MIN_CONFIDENCE); [ discriminate | ].
      destruct (_ <=? 0.01)%float; [ discriminate | ].
      reflexivity.
Qed.

(** * Further properties of the simulator *)

(** ** What each method does, case by case *)

(** A successful [consider_entry], in full. *)
Lemma consider_entry_entered self signal market_question up_price down_price now :
  let o := Portfolio.consider_entry self signal market_question up_price down_price now in
  let trade := opened_trade self signal market_question up_price down_price now in
  Portfolio.returned o = true ->
  Portfolio.active_trade self = None /\
  (Portfolio.capital self <? 1.0)%float = false /\
  Portfolio.is_directional (Signal.label signal) = true /\
  (Trade.entry_price trade <=? 0.01)%float = false /\
  o = Portfolio.done true
        (Portfolio.make (Portfolio.initial_capital self) (Portfolio.capital self)
           (Portfolio.trade_pct self) (Some trade) (Portfolio.closed_trades self)
           (Portfolio.pnl_history self) (Portfolio._trade_counter self + 1)
           (Portfolio._db self) Streak.empty)
        (if Portfolio._db self then [Db.SaveTrade trade] else []).
Proof.
  cbv zeta. unfold Portfolio.consider_entry, opened_trade, normalize.
  destruct (Portfolio.active_trade self); [ discriminate | ].
  destruct (Portfolio.capital self <? 1)%float; [ discriminate | ].
  destruct (Portfolio.is_directional (Signal.label signal)); [ | discriminate ].
  cbn [negb]. cbv zeta.
  destruct (_ <? ENTRY_AFTER_N); [ discriminate | ].
  destruct (_ <? MIN_CONFIDENCE); [ discriminate | ].
  cbn [Trade.entry_price].
  destruct (_ <=? 0.01)%float eqn:E; [ discriminate | ].
  intros _. repeat split.
Qed.

(** A refused [consider_entry], in full. *)
Lemma consider_entry_refused self signal market_question up_price down_price now :
  let o := Portfolio.consider_entry self signal market_question up_price down_price now in
  Portfolio.returned o = false ->
  o = Portfolio.done false self []
  \/ (Portfolio.active_trade self = None /\
      Portfolio.is_directional (Signal.label signal) = false /\
      o = Portfolio.done false (Portfolio.set_streak self Streak.empty) [])
  \/ (Portfolio.active_trade self = None /\
      Portfolio.is_directional (Signal.label signal) = true /\
      o = Portfolio.done false
            (Portfolio.set_streak self
               (Portfolio.track (Portfolio._signal_streak self)
                                (normalize (Signal.label signal)))) []).
Proof.
  cbv zeta. unfold Portfolio.consider_entry, normalize.
  destruct (Portfolio.active_trade self); [ left; reflexivity | ].
  destruct (Portfolio.capital self <? 1)%float; [ left; reflexivity | ].
  destruct (Portfolio.is_directional (Signal.label signal));
    [ | intros _; right; left; repeat split ].
  cbn [negb]. cbv zeta.
  destruct (_ <? ENTRY_AFTER_N); [ intros _; right; right; repeat split | ].
  destruct (_ <? MIN_CONFIDENCE); [ intros _; right; right; repeat split | ].
  destruct (_ <=? 0.01)%float; [ intros _; right; right; repeat split | discriminate ].
Qed.

Lemma normalize_cases label : normalize label = "UP"%string \/ normalize label = "DOWN"%string.
Proof. unfold normalize. destruct (contains "UP" label); auto. Qed.

Lemma set_streak_same self : Portfolio.set_streak self (Portfolio._signal_streak self) = self.
Proof. destruct self; reflexivity. Qed.

(** Every method call is one of the four moves. *)
Lemma step_is_move self self' : step self self' -> move self self'.
Proof.
  intros St. destruct St as [self sg mq up dn now | self up dn fw | self].
  - destruct (Portfolio.returned (Portfolio.consider_entry self sg mq up dn now)) eqn:Hr.
    + destruct (consider_entry_entered self sg mq up dn now Hr) as (Ha & _ & _ & Hp & E).
      rewrite E. cbn [Portfolio.self_after]. apply move_entry; assumption.
    + destruct (consider_entry_refused self sg mq up dn now Hr)
        as [E | [(Ha & _ & E) | (Ha & _ & E)]]; rewrite E; cbn [Portfolio.self_after].
      * rewrite <- (set_streak_same self) at 2. apply move_streak. left. reflexivity.
      * apply move_streak. right. split; [ exact Ha | left; reflexivity ].
      * apply move_streak. right. split; [ exact Ha | right ].
        exists (normalize (Signal.label sg)). split; [ apply normalize_cases | reflexivity ].
  - destruct (Portfolio.active_trade self) as [trade | ] eqn:Ha.
    + rewrite (close_trade_active self up dn fw trade Ha). cbn [Portfolio.self_after].
      apply (move_close self trade _ Ha).
    + unfold Portfolio.close_trade. rewrite Ha. cbn [Portfolio.self_after].
      rewrite <- (set_streak_same self) at 2. apply move_streak. left. reflexivity.
  - unfold Portfolio.cancel_active_trade.
    destruct (Portfolio.active_trade self) as [trade | ] eqn:Ha; cbn [Portfolio.self_after].
    + apply (move_cancel self trade Ha).
    + rewrite <- (set_streak_same self) at 2. apply move_streak. left. reflexivity.
Qed.

(** ** Invariants kept by every move *)

Lemma ids_up_to_snoc n : ids_up_to (S n) = (ids_up_to n ++ [Z.of_nat n + 1])%list.
Proof.
  unfold ids_up_to. rewrite seq_S, map_app. cbn [map]. f_equal. f_equal. lia.
Qed.

Lemma numbered_init ic pct db : numbered (Portfolio.init ic pct db).
Proof. repeat split. intros trade H. discriminate. Qed.

Lemma numbered_move self self' : numbered self -> move self self' -> numbered self'.
Proof.
  intros (Hids & Hact & Hcnt) M. unfold numbered, active_count in *.
  destruct M as [streak _ | sg mq up dn now Ha _ | trade won Ha | trade Ha];
    cbn [Portfolio.set_streak after_entry after_close after_cancel
         Portfolio.closed_trades Portfolio.active_trade Portfolio._trade_counter].
  - repeat split; assumption.
  - rewrite Ha in Hcnt. split; [ exact Hids | ]. split; [ | lia ].
    intros trade E. injection E as <-. reflexivity.
  - rewrite Ha in Hcnt. specialize (Hact trade Ha).
    rewrite map_app, length_app, Nat.add_1_r, ids_up_to_snoc, Hids. cbn [map length].
    split; [ | split; [ discriminate | lia ] ].
    f_equal. f_equal. unfold resolved_trade, Trade.close. cbn. lia.
  - rewrite Ha in Hcnt. specialize (Hact trade Ha).
    rewrite map_app, length_app, Nat.add_1_r, ids_up_to_snoc, Hids. cbn [map length].
    split; [ | split; [ discriminate | lia ] ].
    f_equal. f_equal. cbn. lia.
Qed.

Lemma track_tidy streak direction :
  (streak = Streak.empty \/
   exists d count, (d = "UP"%string \/ d = "DOWN"%string) /\ 1 <= count /\
                   streak = Streak.make (Some d) count) ->
  (direction = "UP"%string \/ direction = "DOWN"%string) ->
  exists d count, (d = "UP"%string \/ d = "DOWN"%string) /\ 1 <= count /\
                  Portfolio.track streak direction = Streak.make (Some d) count.
Proof.
  intros [-> | (d & count & Hd & Hc & ->)] Hdir.
  - exists direction, 1. repeat split; [ exact Hdir | lia ].
  - unfold Portfolio.track. cbn [Streak.label Streak.count].
    destruct (d =? direction)%string.
    + exists d, (count + 1). repeat split; [ exact Hd | lia ].
    + exists direction, 1. repeat split; [ exact Hdir | lia ].
Qed.

Lemma streak_tidy_init ic pct db : streak_tidy (Portfolio.init ic pct db).
Proof. split; [ left; reflexivity | reflexivity ]. Qed.

Lemma streak_tidy_move self self' : streak_tidy self -> move self self' -> streak_tidy self'.
Proof.
  intros (Hs & Ha) M. unfold streak_tidy in *.
  destruct M as [streak Hk | sg mq up dn now _ _ | trade won Ha' | trade Ha'];
    cbn [Portfolio.set_streak after_entry after_close after_cancel
         Portfolio._signal_streak Portfolio.active_trade].
  - destruct Hk as [-> | (Hn & [-> | (direction & Hd & ->)])].
    + split; assumption.
    + split; [ left; reflexivity | reflexivity ].
    + split; [ right; apply track_tidy; assumption | ]. intros C. contradiction.
  - split; [ left; reflexivity | reflexivity ].
  - split; [ left; reflexivity | reflexivity ].
  - split; [ | intros C; contradiction ].
    left. apply Ha. rewrite Ha'. discriminate.
Qed.

Lemma resolutions_snoc closed trade :
  resolutions (closed ++ [trade]) =
  (resolutions closed
   + (if (Trade.status trade =? "WIN")%string then 1 else 0)
   + (if (Trade.status trade =? "LOSS")%string then 1 else 0))%nat.
Proof.
  unfold resolutions, Portfolio.with_status. rewrite !filter_app, !length_app. cbn [filter].
  destruct (Trade.status trade =? "WIN")%string, (Trade.status trade =? "LOSS")%string;
    cbn [length]; lia.
Qed.

Lemma resolutions_resolved closed trade won :
  resolutions (closed ++ [resolved_trade trade won]) = S (resolutions closed).
Proof.
  rewrite resolutions_snoc. unfold resolved_trade, Trade.close. cbn.
  destruct won; cbn; lia.
Qed.

Lemma resolutions_cancelled closed trade :
  resolutions (closed ++ [Trade.set_status trade "CANCELLED"]) = resolutions closed.
Proof. rewrite resolutions_snoc. cbn. lia. Qed.

Lemma hd_error_app {A} (l : list A) x y : hd_error l = Some x -> hd_error (l ++ y) = Some x.
Proof. destruct l; [ discriminate | auto ]. Qed.

Lemma ledger_init ic pct db : ledger_consistent (Portfolio.init ic pct db).
Proof.
  split; [ reflexivity | ]. split; [ reflexivity | ]. split; [ reflexivity | ].
  intros C. exfalso. apply C. reflexivity.
Qed.

Lemma ledger_move self self' :
  ledger_consistent self -> move self self' -> ledger_consistent self'.
Proof.
  intros (Hl & Hh & H0 & H1) M. unfold ledger_consistent in *.
  destruct M as [streak _ | sg mq up dn now _ _ | trade won _ | trade _];
    cbn [Portfolio.set_streak after_entry after_close after_cancel
         Portfolio.closed_trades Portfolio.pnl_history Portfolio.capital
         Portfolio.initial_capital].
  - exact (conj Hl (conj Hh (conj H0 H1))).
  - exact (conj Hl (conj Hh (conj H0 H1))).
  - rewrite resolutions_resolved, length_app, Hl. cbn [length].
    split; [ lia | ]. split; [ apply hd_error_app, Hh | ].
    split; [ discriminate | ]. intros _.
    rewrite last_last. unfold capital_after_close.
    rewrite !round4_idempotent. split; reflexivity.
  - rewrite resolutions_cancelled. exact (conj Hl (conj Hh (conj H0 H1))).
Qed.

Lemma opened_trade_proper self signal market_question up_price down_price now :
  (Trade.entry_price (opened_trade self signal market_question up_price down_price now)
   <=? 0.01)%float = false ->
  entered_properly (opened_trade self signal market_question up_price down_price now).
Proof.
  intros Hp. split; [ apply normalize_cases | ].
  split; [ exact Hp | apply price_guard_excludes_zero, Hp ].
Qed.

Lemma resolved_trade_proper trade won :
  entered_properly trade ->
  entered_properly (resolved_trade trade won) /\ resolved_properly (resolved_trade trade won).
Proof.
  intros He. split; [ exact He | ].
  unfold resolved_properly, resolved_trade, Trade.close.
  cbn [snd Trade.status Trade.exit_price Trade.pnl Trade.shares Trade.bet_size].
  destruct won; split; intros E; try discriminate.
  - rewrite mul_one. split; reflexivity.
  - split; reflexivity.
Qed.

Lemma cancelled_trade_proper trade :
  entered_properly trade ->
  entered_properly (Trade.set_status trade "CANCELLED") /\
  resolved_properly (Trade.set_status trade "CANCELLED").
Proof.
  intros He. split; [ exact He | ]. split; intros E; discriminate.
Qed.

Lemma trades_proper_init ic pct db : trades_proper (Portfolio.init ic pct db).
Proof. split; [ discriminate | constructor ]. Qed.

Lemma trades_proper_move self self' : trades_proper self -> move self self' -> trades_proper self'.
Proof.
  intros (Ha & Hc) M. unfold trades_proper in *.
  destruct M as [streak _ | sg mq up dn now _ Hp | trade won Ha' | trade Ha'];
    cbn [Portfolio.set_streak after_entry after_close after_cancel
         Portfolio.closed_trades Portfolio.active_trade].
  - split; assumption.
  - split; [ | exact Hc ]. intros trade E. injection E as <-.
    apply opened_trade_proper, Hp.
  - split; [ discriminate | ]. apply Forall_app. split; [ exact Hc | ].
    constructor; [ apply resolved_trade_proper, (Ha trade Ha') | constructor ].
  - split; [ discriminate | ]. apply Forall_app. split; [ exact Hc | ].
    constructor; [ apply cancelled_trade_proper, (Ha trade Ha') | constructor ].
Qed.

(** What holds of every portfolio reached from the constructor. *)
Lemma reachable_sound self :
  reachable self ->
  numbered self /\ streak_tidy self /\ ledger_consistent self /\ trades_proper self.
Proof.
  induction 1 as [ic pct db | self self' _ (N & S & L & T) St].
  - split; [ apply numbered_init | ]. split; [ apply streak_tidy_init | ].
    split; [ apply ledger_init | apply trades_proper_init ].
  - apply step_is_move in St. split; [ | split; [ | split ] ].
    + exact (numbered_move self self' N St).
    + exact (streak_tidy_move self self' S St).
    + exact (ledger_move self self' L St).
    + exact (trades_proper_move self self' T St).
Qed.

Lemma reachable_won_once : reachable won_once.
Proof. eapply reachable_step; [ exact reachable_holding | apply step_close_trade ]. Qed.

Lemma reachable_holding_again : reachable holding_again.
Proof. do 4 apply reachable_tick. exact reachable_won_once. Qed.

(** ** Trade identifiers *)

(** X1. In every portfolio reached from the constructor the closed trades
    carry the ids 1, 2, ..., n in the order they were closed, an active trade
    carries the id n + 1, and the trade counter is the number of trades
    opened so far. *)
Theorem trade_ids_are_consecutive :
  forall self,
    reachable self ->
    let n := length (Portfolio.closed_trades self) in
    map Trade.id (Portfolio.closed_trades self) = map Z.of_nat (seq 1 n) /\
    (forall trade, Portfolio.active_trade self = Some trade ->
                   Trade.id trade = Z.of_nat n + 1) /\
    Portfolio._trade_counter self
    = Z.of_nat n + match Portfolio.active_trade self with Some _ => 1 | None => 0 end.
Proof.
  intros self R n. destruct (reachable_sound self R) as ((Hids & Hact & Hcnt) & _).
  split; [ exact Hids | ]. split; [ | exact Hcnt ].
  intros trade Ha. rewrite (Hact trade Ha), Hcnt. unfold active_count. rewrite Ha.
  reflexivity.
Qed.

Lemma trade_ids_are_consecutive_witness :
  map Trade.id (Portfolio.closed_trades holding_again) = [1] /\
  (forall trade, Portfolio.active_trade holding_again = Some trade -> Trade.id trade = 2) /\
  Portfolio._trade_counter holding_again = 2.
Proof.
  destruct (trade_ids_are_consecutive holding_again reachable_holding_again)
    as (Hids & Hact & Hcnt).
  split; [ | split ].
  - rewrite Hids. vm_compute. reflexivity.
  - intros trade Ha. rewrite (Hact trade Ha). vm_compute. reflexivity.
  - rewrite Hcnt. vm_compute. reflexivity.
Defined.

(** ** The signal streak *)

(** X2. In every reachable portfolio the streak is either empty (no label,
    count 0) or counts at least one signal of direction UP or DOWN, and it is
    empty whenever a trade is active; so after [close_trade] and after
    [cancel_active_trade], which does not touch the streak, the streak is
    empty. *)
Theorem streak_is_tidy :
  forall self,
    reachable self ->
    (Portfolio._signal_streak self = Streak.empty \/
     exists direction count,
       (direction = "UP"%string \/ direction = "DOWN"%string) /\ 1 <= count /\
       Portfolio._signal_streak self = Streak.make (Some direction) count) /\
    (Portfolio.active_trade self <> None -> Portfolio._signal_streak self = Streak.empty) /\
    Portfolio._signal_streak (Portfolio.self_after (Portfolio.cancel_active_trade self))
    = (match Portfolio.active_trade self with
       | Some _ => Streak.empty
       | None => Portfolio._signal_streak self
       end).
Proof.
  intros self R. destruct (reachable_sound self R) as (_ & (Hs & Ha) & _).
  split; [ exact Hs | ]. split; [ exact Ha | ].
  unfold Portfolio.cancel_active_trade.
  destruct (Portfolio.active_trade self) as [trade | ] eqn:E; cbn; [ | reflexivity ].
  apply Ha. discriminate.
Qed.

Lemma streak_is_tidy_witness :
  Portfolio._signal_streak (tick 70 (tick 70 won_once)) = Streak.make (Some "UP"%string) 2 /\
  Portfolio._signal_streak holding_again = Streak.empty /\
  Portfolio._signal_streak (Portfolio.self_after (Portfolio.cancel_active_trade holding_again))
  = Streak.empty.
Proof.
  destruct (streak_is_tidy holding_again reachable_holding_again) as (_ & Ha & Hc).
  split; [ vm_compute; reflexivity | ].
  split; [ apply Ha; vm_compute; discriminate | ].
  rewrite Hc. vm_compute. reflexivity.
Defined.

(** ** The ledger *)

(** X3. In every reachable portfolio the P&L history starts with 0.0 and has
    exactly one point per trade resolved as WIN or LOSS besides it:
    cancellations and refused or accepted entries add none. *)
Theorem history_has_one_point_per_resolution :
  forall self,
    reachable self ->
    hd_error (Portfolio.pnl_history self) = Some 0.0%float /\
    length (Portfolio.pnl_history self)
    = S (length (Portfolio.with_status "WIN" (Portfolio.closed_trades self))
         + length (Portfolio.with_status "LOSS" (Portfolio.closed_trades self))).
Proof.
  intros self R. destruct (reachable_sound self R) as (_ & _ & (Hl & Hh & _) & _).
  split; [ exact Hh | exact Hl ].
Qed.

Lemma history_has_one_point_per_resolution_witness :
  length (Portfolio.pnl_history
            (Portfolio.self_after (Portfolio.cancel_active_trade holding_again))) = 2%nat.
Proof.
  assert (R : reachable (Portfolio.self_after (Portfolio.cancel_active_trade holding_again)))
    by (eapply reachable_step;
        [ exact reachable_holding_again | apply step_cancel_active_trade ]).
  rewrite (proj2 (history_has_one_point_per_resolution _ R)).
  vm_compute. reflexivity.
Defined.

(** X4. In every reachable portfolio, as long as no trade has been resolved
    the capital is the initial capital; once one has, the last point of the
    P&L history is [round(capital - initial_capital, 4)] for the current
    capital, and the capital is a fixed point of rounding to four decimals,
    so the [capital] entry of [stats] is the capital itself. *)
Theorem capital_matches_history :
  forall self,
    reachable self ->
    (Portfolio.pnl_history self = [0.0%float] ->
       Portfolio.capital self = Portfolio.initial_capital self) /\
    (Portfolio.pnl_history self <> [0.0%float] ->
       last (Portfolio.pnl_history self) 0.0%float
       = Py.round (Portfolio.capital self - Portfolio.initial_capital self) 4 /\
       Py.round (Portfolio.capital self) 4 = Portfolio.capital self).
Proof.
  intros self R. destruct (reachable_sound self R) as (_ & _ & (Hl & Hh & H0 & H1) & _).
  split.
  - intros E. apply H0. rewrite E in Hl. cbn in Hl. lia.
  - intros E. apply H1. intros Z. rewrite Z in Hl.
    destruct (Portfolio.pnl_history self) as [ | x [ | y l]]; try discriminate.
    cbn in Hh. injection Hh as ->. apply E. reflexivity.
Qed.

Lemma capital_matches_history_witness :
  last (Portfolio.pnl_history won_once) 0.0%float
  = Py.round (Portfolio.capital won_once - 100.0) 4 /\
  Py.round (Portfolio.capital won_once) 4 = Portfolio.capital won_once.
Proof.
  destruct (proj2 (capital_matches_history won_once reachable_won_once)) as (Hlast & Hfix).
  - vm_compute. discriminate.
  - split; [ rewrite Hlast; reflexivity | exact Hfix ].
Defined.

(** ** What entry and resolution leave in a trade *)

(** X5. Every trade held by a reachable portfolio has direction UP or DOWN
    and an entry price that passed the guard [entry_price <= 0.01], hence is
    not zero; a WIN has exit price 1.0 and P&L [round(shares - bet_size, 4)],
    a LOSS has exit price 0.0 and P&L [round(-bet_size, 4)]. *)
Theorem held_trades_are_proper :
  forall self trade,
    reachable self ->
    In trade (held_trades self) ->
    (Trade.direction trade = "UP"%string \/ Trade.direction trade = "DOWN"%string) /\
    (Trade.entry_price trade <=? 0.01)%float = false /\
    (Trade.entry_price trade =? 0)%float = false /\
    (Trade.status trade = "WIN"%string ->
       Trade.exit_price trade = Some 1.0%float /\
       Trade.pnl trade = Some (Py.round (Trade.shares trade - Trade.bet_size trade) 4)) /\
    (Trade.status trade = "LOSS"%string ->
       Trade.exit_price trade = Some 0.0%float /\
       Trade.pnl trade = Some (Py.round (- Trade.bet_size trade) 4)).
Proof.
  intros self trade R Hin.
  destruct (reachable_sound self R) as (_ & _ & _ & (Ha & Hc)).
  destruct (reachable_well_formed self R) as [Wa _].
  unfold held_trades in Hin. apply in_app_or in Hin. destruct Hin as [Hin | Hin].
  - destruct (Portfolio.active_trade self) as [t | ] eqn:Et; [ | contradiction ].
    destruct Hin as [<- | []].
    destruct (Ha t eq_refl) as (Hd & Hp & Hz). destruct (Wa t eq_refl) as (Hs & _).
    repeat (split; [ assumption | ]).
    split; intros E; rewrite Hs in E; discriminate.
  - rewrite Forall_forall in Hc. destruct (Hc trade Hin) as ((Hd & Hp & Hz) & (Hw & Hl)).
    exact (conj Hd (conj Hp (conj Hz (conj Hw Hl)))).
Qed.

Lemma held_trades_are_proper_witness :
  let first := Trade.make 1 "SOL up or down?" "UP" 0.40 5.0 2.0 "12:00:00"
                          (Some 1.0%float) (Some 3.0%float) "WIN" in
  (Trade.entry_price first =? 0)%float = false /\
  Trade.pnl first = Some (Py.round (Trade.shares first - Trade.bet_size first) 4).
Proof.
  cbv zeta.
  destruct (held_trades_are_proper holding_again
              (Trade.make 1 "SOL up or down?" "UP" 0.40 5.0 2.0 "12:00:00"
                          (Some 1.0%float) (Some 3.0%float) "WIN")
              reachable_holding_again) as (_ & _ & Hz & Hw & _).
  - vm_compute. right. left. reflexivity.
  - split; [ exact Hz | exact (proj2 (Hw eq_refl)) ].
Defined.

(** ** What a portfolio never changes *)

Lemma move_keeps_settings self self' :
  move self self' ->
  Portfolio.initial_capital self' = Portfolio.initial_capital self /\
  Portfolio.trade_pct self' = Portfolio.trade_pct self /\
  Portfolio._db self' = Portfolio._db self /\
  Portfolio._trade_counter self <= Portfolio._trade_counter self' <= Portfolio._trade_counter self + 1.
Proof.
  intros M. destruct M; cbn; repeat split; lia.
Qed.

(** X6. Through any number of calls to [consider_entry], [close_trade] and
    [cancel_active_trade] the initial capital, the stake fraction and the
    persistence handle stay what the constructor set, and the trade counter
    never decreases. *)
Theorem settings_never_change :
  forall self self',
    later self self' ->
    Portfolio.initial_capital self' = Portfolio.initial_capital self /\
    Portfolio.trade_pct self' = Portfolio.trade_pct self /\
    Portfolio._db self' = Portfolio._db self /\
    Portfolio._trade_counter self <= Portfolio._trade_counter self'.
Proof.
  induction 1 as [self | self self' self'' _ (Hi & Hp & Hd & Hc) St].
  - repeat split; lia.
  - destruct (move_keeps_settings self' self'' (step_is_move _ _ St)) as (Hi' & Hp' & Hd' & Hc').
    rewrite Hi', Hp', Hd'. repeat split; try assumption. lia.
Qed.

Lemma settings_never_change_witness :
  Portfolio.initial_capital won_once = 100.0%float /\
  Portfolio.trade_pct won_once = 0.02%float.
Proof.
  assert (L : later fresh won_once).
  { eapply later_step; [ | apply step_close_trade ].
    do 4 (eapply later_step; [ | apply step_consider_entry ]). apply later_now. }
  destruct (settings_never_change fresh won_once L) as (Hi & Hp & _).
  split; [ rewrite Hi | rewrite Hp ]; reflexivity.
Defined.

(** ** Resolution happens once *)

(** X7. After [close_trade] or [cancel_active_trade] no trade is active, so
    a further [close_trade] returns [None] and a further
    [cancel_active_trade] returns, both leaving the portfolio as it is and
    writing nothing: through the portfolio a trade is resolved or cancelled at
    most once. *)
Theorem resolution_is_final :
  forall self up_price down_price force_winner up_price' down_price' force_winner',
    let closed := Portfolio.self_after
                    (Portfolio.close_trade self up_price down_price force_winner) in
    let cancelled := Portfolio.self_after (Portfolio.cancel_active_trade self) in
    Portfolio.close_trade closed up_price' down_price' force_winner'
    = Portfolio.done None closed [] /\
    Portfolio.cancel_active_trade closed = Portfolio.done tt closed [] /\
    Portfolio.close_trade cancelled up_price' down_price' force_winner'
    = Portfolio.done None cancelled [] /\
    Portfolio.cancel_active_trade cancelled = Portfolio.done tt cancelled [].
Proof.
  intros self up dn fw up' dn' fw' closed cancelled.
  assert (Hc : Portfolio.active_trade closed = None).
  { subst closed. destruct (Portfolio.active_trade self) as [trade | ] eqn:Ha.
    - rewrite (close_trade_active self up dn fw trade Ha). reflexivity.
    - unfold Portfolio.close_trade. rewrite Ha. exact Ha. }
  assert (Hk : Portfolio.active_trade cancelled = None).
  { subst cancelled. unfold Portfolio.cancel_active_trade.
    destruct (Portfolio.active_trade self) as [trade | ] eqn:Ha; [ reflexivity | exact Ha ]. }
  unfold Portfolio.close_trade, Portfolio.cancel_active_trade.
  rewrite Hc, Hk. repeat split; reflexivity.
Qed.

(** ** What is written to the store *)

(** X8. A portfolio without a persistence module writes nothing.  With one,
    [consider_entry] writes exactly the trade it opened, and only when it
    returns true; [close_trade] and [cancel_active_trade] write, when a trade
    was active, that trade as it stands after the call followed by a snapshot
    of the capital, initial capital, P&L history and trade counter the
    portfolio has after the call, and nothing otherwise. *)
Theorem writes_follow_the_state :
  forall self,
    (forall signal market_question up_price down_price now,
        let o := Portfolio.consider_entry self signal market_question
                                          up_price down_price now in
        Portfolio.db_calls o =
        match Portfolio.active_trade (Portfolio.self_after o) with
        | Some trade =>
            if Portfolio._db self && Portfolio.returned o then [Db.SaveTrade trade] else []
        | None => []
        end)
    /\ (forall up_price down_price force_winner,
          let o := Portfolio.close_trade self up_price down_price force_winner in
          let self' := Portfolio.self_after o in
          Portfolio.db_calls o =
          match Portfolio.returned o with
          | Some trade =>
              if Portfolio._db self
              then [Db.SaveTrade trade;
                    Db.SavePortfolioState (Portfolio.capital self')
                      (Portfolio.initial_capital self') (Portfolio.pnl_history self')
                      (Portfolio._trade_counter self')]
              else []
          | None => []
          end)
    /\ (let o := Portfolio.cancel_active_trade self in
        let self' := Portfolio.self_after o in
        Portfolio.db_calls o =
        match Portfolio.active_trade self with
        | Some trade =>
            if Portfolio._db self
            then [Db.SaveTrade (Trade.set_status trade "CANCELLED");
                  Db.SavePortfolioState (Portfolio.capital self')
                    (Portfolio.initial_capital self') (Portfolio.pnl_history self')
                    (Portfolio._trade_counter self')]
            else []
        | None => []
        end).
Proof.
  intros self. split; [ | split ].
  - intros sg mq up dn now o.
    destruct (Portfolio.returned o) eqn:Hr.
    + destruct (consider_entry_entered self sg mq up dn now Hr) as (_ & _ & _ & _ & E).
      subst o. rewrite E. cbn. rewrite andb_true_r. reflexivity.
    + destruct (consider_entry_refused self sg mq up dn now Hr)
        as [E | [(Ha & _ & E) | (Ha & _ & E)]]; subst o; rewrite E; cbn;
        try rewrite Ha; try rewrite andb_false_r;
        destruct (Portfolio.active_trade self); reflexivity.
  - intros up dn fw o self'. subst self' o.
    destruct (Portfolio.active_trade self) as [trade | ] eqn:Ha.
    + rewrite (close_trade_active self up dn fw trade Ha). reflexivity.
    + unfold Portfolio.close_trade. rewrite Ha. reflexivity.
  - cbv zeta. unfold Portfolio.cancel_active_trade.
    destruct (Portfolio.active_trade self); reflexivity.
Qed.

(** ** Saving to the store *)




(** ** A restart reads back what the portfolio had *)

Section Restart.









End Restart.

Section ReadBack.




End ReadBack.







(** ** The streak counts the run the signals end with *)

Section Streaks.

Lemma run_length_head label earlier :
  Portfolio.is_directional label = true ->
  run_length (normalize label) (label :: earlier)
  = 1 + run_length (normalize label) earlier.
Proof. intros H. cbn [run_length]. rewrite H, String.eqb_refl. reflexivity. Qed.

Lemma track_streak_of labels label :
  Portfolio.is_directional label = true ->
  Portfolio.track (streak_of labels) (normalize label)
  = Streak.make (Some (normalize label)) (1 + run_length (normalize label) (rev labels)).
Proof.
  intros Hd. unfold streak_of. destruct (rev labels) as [ | l0 earlier]; [ reflexivity | ].
  destruct (Portfolio.is_directional l0) eqn:H0.
  - rewrite (run_length_head l0 earlier H0).
    unfold Portfolio.track. cbn [Streak.label Streak.count run_length]. rewrite H0.
    cbn [andb].
    destruct (String.eqb_spec (normalize l0) (normalize label)) as [E | E].
    + rewrite E. f_equal. lia.
    + reflexivity.
  - cbn [run_length]. rewrite H0. reflexivity.
Qed.

Lemma streak_of_snoc labels label :
  streak_of (labels ++ [label]) =
  if Portfolio.is_directional label
  then Portfolio.track (streak_of labels) (normalize label)
  else Streak.empty.
Proof.
  destruct (Portfolio.is_directional label) eqn:Hd.
  - rewrite (track_streak_of labels label Hd).
    unfold streak_of at 1. rewrite rev_app_distr. cbn [rev app]. rewrite Hd.
    rewrite (run_length_head label (rev labels) Hd). reflexivity.
  - unfold streak_of. rewrite rev_app_distr. cbn [rev app]. rewrite Hd. reflexivity.
Qed.

Lemma feed_snoc self calls c :
  feed self (calls ++ [c]) =
  Portfolio.self_after
    (Portfolio.consider_entry (feed self calls) (call_signal c) (call_market c)
                              (call_up c) (call_down c) (call_now c)).
Proof. unfold feed. rewrite fold_left_app. reflexivity. Qed.

(** A signal below the confidence threshold is refused and only counted. *)
Lemma low_confidence_is_counted self signal market_question up_price down_price now :
  Portfolio.active_trade self = None ->
  (Portfolio.capital self <? 1.0)%float = false ->
  Signal.confidence signal < MIN_CONFIDENCE ->
  Portfolio.consider_entry self signal market_question up_price down_price now
  = Portfolio.done false
      (Portfolio.set_streak self
         (if Portfolio.is_directional (Signal.label signal)
          then Portfolio.track (Portfolio._signal_streak self)
                               (normalize (Signal.label signal))
          else Streak.empty)) [].
Proof.
  intros Ha Hc Hm. destruct (Portfolio.is_directional (Signal.label signal)) eqn:Hd.
  - pose proof (consider_entry_gate self signal market_question up_price down_price now
                  Ha Hc Hd) as G.
    cbv zeta in G. apply Z.ltb_lt in Hm. rewrite Hm, orb_true_r in G. exact G.
  - unfold Portfolio.consider_entry. rewrite Ha, Hc, Hd. reflexivity.
Qed.

End Streaks.

(** X12. While no trade is active and the capital is at least 1.0, signals
    below the confidence threshold are only counted: after any sequence of
    them, starting from an empty streak, the streak is empty if the last
    label was not directional, and otherwise holds the direction of the last
    label and the number of consecutive labels of that direction the
    sequence ends with; nothing else in the portfolio has changed. *)
Theorem streak_counts_the_trailing_run :
  forall self calls,
    Portfolio.active_trade self = None ->
    (Portfolio.capital self <? 1.0)%float = false ->
    Portfolio._signal_streak self = Streak.empty ->
    Forall (fun c => Signal.confidence (call_signal c) < MIN_CONFIDENCE) calls ->
    feed self calls
    = Portfolio.set_streak self
        (streak_of (map (fun c => Signal.label (call_signal c)) calls)).
Proof.
  intros self calls Ha Hc Hs. induction calls as [ | c calls IH] using rev_ind; intros Hall.
  - cbn. rewrite <- Hs. symmetry. apply set_streak_same.
  - apply Forall_app in Hall. destruct Hall as [Hall Hlast].
    inversion Hlast as [ | ? ? Hm _]; subst.
    rewrite feed_snoc, (IH Hall), map_app. cbn [map]. rewrite streak_of_snoc.
    rewrite low_confidence_is_counted; [ | exact Ha | exact Hc | exact Hm ].
    reflexivity.
Qed.

Lemma streak_counts_the_trailing_run_witness :
  let poll label := {| call_signal := Signal.make label 60; call_market := "SOL up or down?";
                       call_up := 0.40; call_down := 0.60; call_now := "12:00:00" |} in
  Portfolio._signal_streak
    (feed fresh [poll "UP"; poll "DOWN"; poll "NEUTRAL"; poll "DOWN"; poll "STRONG DOWN";
                 poll "DOWN"]%string)
  = Streak.make (Some "DOWN"%string) 3.
Proof.
  cbv zeta.
  rewrite streak_counts_the_trailing_run; try (vm_compute; reflexivity).
  repeat constructor.
Defined.

(** ** More about the report *)

Section ReportFacts.

Lemma last_items_suffix {A} n (l : list A) :
  l = (firstn (Datatypes.length l - n) l ++ last_items n l)%list.
Proof. unfold last_items. symmetry. apply firstn_skipn. Qed.

Lemma last_items_length {A} n (l : list A) :
  Datatypes.length (last_items n l) = Nat.min n (Datatypes.length l).
Proof. unfold last_items. rewrite length_skipn. lia. Qed.

Lemma settled_counts closed :
  Forall settled closed ->
  Datatypes.length closed
  = (Datatypes.length (Portfolio.with_status "WIN" closed)
     + Datatypes.length (Portfolio.with_status "LOSS" closed)
     + Datatypes.length (Portfolio.with_status "CANCELLED" closed))%nat.
Proof.
  unfold Portfolio.with_status.
  induction 1 as [ | t l Ht _ IH]; [ reflexivity | ].
  cbn [filter Datatypes.length].
  destruct Ht as [([E | E] & _) | (E & _)]; rewrite E; cbn; lia.
Qed.

Lemma unrealized_is_rounded self up_price down_price :
  Py.round (Portfolio.get_unrealized self up_price down_price) 4
  = Portfolio.get_unrealized self up_price down_price.
Proof.
  unfold Portfolio.get_unrealized.
  destruct (Portfolio.active_trade self) as [t | ].
  - unfold Trade.unrealized_pnl. apply round4_idempotent.
  - vm_compute. reflexivity.
Qed.

End ReportFacts.

(** X13. [stats] fails, with the [ZeroDivisionError] of its percentage, exactly
    when the initial capital is a zero (0.0 or -0.0); for every other initial
    capital, NaN and the infinities included, it returns a report. *)
Theorem stats_fails_on_zero_initial_capital :
  forall self up_price down_price,
    Portfolio.stats self up_price down_price = None
    <-> (Portfolio.initial_capital self =? 0)%float = true.
Proof.
  intros self up dn. unfold Portfolio.stats, PyNum.div. cbn [PyNum.to_float].
  destruct (Portfolio.initial_capital self =? 0)%float; split; intros H;
    try reflexivity; discriminate.
Qed.

(** X14. In every report on a reachable portfolio the number of trades is
    the number of wins plus losses plus cancellations; the report shows the
    last 50 points of the P&L history at most, in their order, and at most
    the 20 most recently closed trades, latest first. *)
Theorem report_counts_and_windows :
  forall self up_price down_price report,
    reachable self ->
    Portfolio.stats self up_price down_price = Some report ->
    Portfolio.r_total_trades report
    = Portfolio.r_wins report + Portfolio.r_losses report + Portfolio.r_cancelled report /\
    (exists older,
        Portfolio.pnl_history self = (older ++ Portfolio.r_pnl_history report)%list) /\
    Datatypes.length (Portfolio.r_pnl_history report)
    = Nat.min 50 (Datatypes.length (Portfolio.pnl_history self)) /\
    (exists older recent,
        Portfolio.closed_trades self = (older ++ recent)%list /\
        Portfolio.r_trade_log report = map Trade.to_dict (rev recent) /\
        Datatypes.length recent = Nat.min 20 (Datatypes.length (Portfolio.closed_trades self))).
Proof.
  intros self up dn report R Hs.
  destruct (reachable_well_formed self R) as [_ Wc].
  unfold Portfolio.stats in Hs.
  destruct (PyNum.div _ _) as [ratio | ]; [ | discriminate ].
  injection Hs as <-.
  cbn [Portfolio.r_total_trades Portfolio.r_wins Portfolio.r_losses Portfolio.r_cancelled
       Portfolio.r_pnl_history Portfolio.r_trade_log].
  split; [ rewrite (settled_counts _ Wc); lia | ].
  split; [ eexists; apply last_items_suffix | ].
  split; [ apply last_items_length | ].
  exists (firstn (Datatypes.length (Portfolio.closed_trades self) - 20)
                 (Portfolio.closed_trades self)),
         (last_items 20 (Portfolio.closed_trades self)).
  split; [ apply last_items_suffix | ]. split; [ reflexivity | apply last_items_length ].
Qed.

Lemma report_counts_and_windows_witness :
  exists report,
    Portfolio.stats holding_again 0.45 0.55 = Some report /\
    Portfolio.r_total_trades report = 1 /\
    Datatypes.length (Portfolio.r_pnl_history report) = 2%nat.
Proof.
  destruct (stats_returns holding_again 0.45 0.55) as [report Hr]; [ vm_compute; reflexivity | ].
  exists report. split; [ exact Hr | ].
  destruct (report_counts_and_windows holding_again 0.45 0.55 report
              reachable_holding_again Hr) as (Hn & _ & Hl & _).
  assert (E : Portfolio.stats holding_again 0.45 0.55 = Some report) by exact Hr.
  split.
  - rewrite Hn. vm_compute in E. injection E as <-. reflexivity.
  - rewrite Hl. vm_compute. reflexivity.
Defined.

(** X15. The roundings [stats] and [to_dict] apply on top of values that are
    already rounded change nothing: the reported unrealized P&L is
    [get_unrealized], the live view's mark-to-market and unrealized P&L are
    fixed points of rounding to four decimals, and [to_dict] of a [to_dict]
    is the same dictionary. *)
Theorem report_roundings_are_stable :
  forall self up_price down_price report,
    Portfolio.stats self up_price down_price = Some report ->
    Portfolio.r_unrealized_pnl report = Portfolio.get_unrealized self up_price down_price /\
    (forall view,
        Portfolio.r_active_trade report = Some view ->
        Py.round (Portfolio.view_mark_to_market view) 4 = Portfolio.view_mark_to_market view /\
        Py.round (Portfolio.view_unrealized_pnl view) 4 = Portfolio.view_unrealized_pnl view /\
        Portfolio.view_unrealized_pnl view = Portfolio.r_unrealized_pnl report /\
        Trade.to_dict (Portfolio.view_trade view) = Portfolio.view_trade view) /\
    Forall (fun entry => Trade.to_dict entry = entry) (Portfolio.r_trade_log report).
Proof.
  intros self up dn report Hs.
  unfold Portfolio.stats in Hs.
  destruct (PyNum.div _ _) as [ratio | ]; [ | discriminate ].
  injection Hs as <-.
  cbn [Portfolio.r_unrealized_pnl Portfolio.r_active_trade Portfolio.r_trade_log].
  split; [ apply unrealized_is_rounded | ]. split.
  - intros view Hv. rewrite unrealized_is_rounded.
    unfold Portfolio.get_unrealized.
    destruct (Portfolio.active_trade self) as [t | ]; [ | discriminate ].
    injection Hv as <-.
    cbn [Portfolio.view_mark_to_market Portfolio.view_unrealized_pnl Portfolio.view_trade].
    unfold Trade.mark_to_market, Trade.unrealized_pnl.
    rewrite !round4_idempotent. repeat split.
    unfold Trade.to_dict. cbn. rewrite round4_idempotent. reflexivity.
  - apply Forall_map. apply Forall_forall. intros t _.
    unfold Trade.to_dict. cbn. rewrite round4_idempotent. reflexivity.
Qed.

Lemma report_roundings_are_stable_witness :
  exists report,
    Portfolio.stats holding_again 0.45 0.55 = Some report /\
    Portfolio.r_unrealized_pnl report
    = Portfolio.get_unrealized holding_again 0.45 0.55.
Proof.
  destruct (stats_returns holding_again 0.45 0.55) as [report Hr]; [ vm_compute; reflexivity | ].
  exists report. split; [ exact Hr | ].
  exact (proj1 (report_roundings_are_stable holding_again 0.45 0.55 report Hr)).
Defined.

(** ** Entry *)

(** X16. When [consider_entry] returns true the new active trade is OPEN
    with the next id, the signal's normalized direction, the price of that
    side, a stake of [round(capital * trade_pct, 2)] and
    [round(stake / entry_price, 4)] shares; the capital is not debited, the
    P&L history and the closed trades are untouched, and the streak starts
    over.  No call to [consider_entry], accepted or refused, changes the
    capital. *)
Theorem entry_opens_without_debit :
  forall self signal market_question up_price down_price now,
    let o := Portfolio.consider_entry self signal market_question up_price down_price now in
    let self' := Portfolio.self_after o in
    Portfolio.capital self' = Portfolio.capital self /\
    (Portfolio.returned o = true ->
     exists trade,
       Portfolio.active_trade self' = Some trade /\
       Trade.id trade = Portfolio._trade_counter self + 1 /\
       Portfolio._trade_counter self' = Portfolio._trade_counter self + 1 /\
       Trade.direction trade = normalize (Signal.label signal) /\
       Trade.entry_price trade
       = (if (normalize (Signal.label signal) =? "UP")%string then up_price else down_price) /\
       Trade.bet_size trade
       = Py.round (Portfolio.capital self * Portfolio.trade_pct self) 2 /\
       Trade.shares trade = Py.round (Trade.bet_size trade / Trade.entry_price trade) 4 /\
       Trade.market trade = market_question /\
       Trade.status trade = "OPEN"%string /\
       Portfolio.pnl_history self' = Portfolio.pnl_history self /\
       Portfolio.closed_trades self' = Portfolio.closed_trades self /\
       Portfolio._signal_streak self' = Streak.empty).
Proof.
  intros self sg mq up dn now o self'. subst self'.
  destruct (Portfolio.returned o) eqn:Hr.
  - destruct (consider_entry_entered self sg mq up dn now Hr) as (_ & _ & _ & _ & E).
    fold o in E. rewrite E. cbn [Portfolio.self_after Portfolio.capital].
    split; [ reflexivity | ]. intros _.
    exists (opened_trade self sg mq up dn now). repeat split.
  - split; [ | discriminate ].
    destruct (consider_entry_refused self sg mq up dn now Hr)
      as [E | [(_ & _ & E) | (_ & _ & E)]]; fold o in E; rewrite E; reflexivity.
Qed.

Lemma entry_opens_without_debit_witness :
  exists trade,
    Portfolio.active_trade holding = Some trade /\
    Trade.id trade = 1 /\
    Trade.bet_size trade = 2.0%float /\
    Trade.shares trade = 5.0%float /\
    Portfolio.capital holding = 100.0%float.
Proof.
  destruct (entry_opens_without_debit (tick 70 (tick 70 (tick 70 fresh))) (up_signal 70)
              "SOL up or down?" 0.40 0.60 "12:00:00") as (Hc & Hopen).
  destruct Hopen as (trade & Ha & Hid & _ & _ & _ & Hb & Hs & _); [ vm_compute; reflexivity | ].
  exists trade. split; [ exact Ha | ].
  split; [ rewrite Hid; reflexivity | ].
  split; [ rewrite Hb; vm_compute; reflexivity | ].
  split.
  - vm_compute in Ha. injection Ha as <-. reflexivity.
  - unfold holding, tick at 1. rewrite Hc. vm_compute. reflexivity.
Defined.

(** * strategy.py *)

(** X17. The slot timestamp lies on the grid of five-minute slots that
    starts at [SLOT_ORIGIN]; with no lookahead it is the start of the slot the
    clock is in; each unit of lookahead moves it one slot on, so the default
    lookahead of 1 gives the first slot start after the clock, at most 300
    seconds ahead.  This holds for clocks before the origin as well. *)
Theorem slot_is_on_the_grid :
  forall now lookahead,
    let slot := Strategy.get_current_slot_ts now lookahead in
    (slot - Strategy.SLOT_ORIGIN) mod Strategy.SLOT_STEP = 0 /\
    slot = Strategy.get_current_slot_ts now 0 + lookahead * Strategy.SLOT_STEP /\
    Strategy.get_current_slot_ts now 0 <= now
      < Strategy.get_current_slot_ts now 0 + Strategy.SLOT_STEP /\
    now < Strategy.get_current_slot_ts now 1 <= now + Strategy.SLOT_STEP.
Proof.
  intros now k slot. subst slot.
  unfold Strategy.get_current_slot_ts, Strategy.SLOT_STEP, Strategy.SLOT_ORIGIN.
  pose proof (Z.mod_pos_bound (now - 1771778100) 300 ltac:(lia)) as B.
  pose proof (Z.div_mod (now - 1771778100) 300 ltac:(lia)) as D.
  remember ((now - 1771778100) mod 300) as e eqn:Ee. clear Ee.
  remember ((now - 1771778100) / 300) as q eqn:Eq. clear Eq.
  split.
  - replace (now - e + k * 300 - 1771778100) with ((q + k) * 300) by lia.
    apply Z.mod_mul. lia.
  - repeat split; lia.
Qed.

Section SignalLabels.

Lemma compute_signal_labels obi_now obi_window threshold label color conf combined :
  Strategy.compute_signal obi_now obi_window threshold = Some (label, color, conf, combined) ->
  (color = Strategy.GREEN /\ (label = "STRONG UP  ▲▲"%string \/ label = "UP  ▲"%string) /\
   (threshold <? combined)%float = true /\ conf <= 99)
  \/ (color = Strategy.RED /\
      (label = "STRONG DOWN  ▼▼"%string \/ label = "DOWN  ▼"%string) /\
      (combined <? - threshold)%float = true /\ conf <= 99)
  \/ (color = Strategy.YELLOW /\ label = "NEUTRAL  ──"%string /\ conf = 50 /\
      (threshold <? combined)%float = false /\ (combined <? - threshold)%float = false).
Proof.
  unfold Strategy.compute_signal. cbv zeta.
  remember (0.6 * obi_now + _)%float as c eqn:Ec. clear Ec.
  destruct (threshold <? c)%float eqn:Hup.
  - destruct (Strategy.int_of_float _) as [n | ]; [ | discriminate ].
    intros H. injection H as <- <- <- <-. left.
    split; [ reflexivity | ]. split; [ destruct (threshold * 2 <? c)%float; auto | ].
    split; [ exact Hup | lia ].
  - destruct (c <? - threshold)%float eqn:Hdown.
    + destruct (Strategy.int_of_float _) as [n | ]; [ | discriminate ].
      intros H. injection H as <- <- <- <-. right. left.
      split; [ reflexivity | ]. split; [ destruct (c <? - threshold * 2)%float; auto | ].
      split; [ exact Hdown | lia ].
    + intros H. injection H as <- <- <- <-. right. right.
      repeat split; first [ reflexivity | assumption ].
Qed.

Lemma non_directional_is_refused self signal market_question up_price down_price now :
  Portfolio.is_directional (Signal.label signal) = false ->
  let o := Portfolio.consider_entry self signal market_question up_price down_price now in
  Portfolio.returned o = false /\
  Portfolio.active_trade (Portfolio.self_after o) = Portfolio.active_trade self /\
  (Portfolio._signal_streak (Portfolio.self_after o) = Portfolio._signal_streak self \/
   Portfolio._signal_streak (Portfolio.self_after o) = Streak.empty).
Proof.
  intros Hd. cbv zeta. unfold Portfolio.consider_entry.
  destruct (Portfolio.active_trade self) eqn:Ha; [ cbn; auto | ].
  destruct (Portfolio.capital self <? 1)%float; [ cbn; auto | ].
  rewrite Hd. cbn. auto.
Qed.

End SignalLabels.

(** X18. Whatever [compute_signal] returns, its label is one of five texts
    that carry arrow or dash glyphs, its confidence is at most 99 (50 for
    NEUTRAL), and an UP text goes with a combined imbalance above the
    threshold, a DOWN text with one below its negative.  None of the five is
    one of the four labels [consider_entry] acts on: handed such a signal
    unchanged, [consider_entry] returns false, opens no trade and leaves the
    streak as it was or empty. *)
Theorem computed_labels_are_not_directional :
  forall obi_now obi_window threshold label color conf combined,
    Strategy.compute_signal obi_now obi_window threshold
    = Some (label, color, conf, combined) ->
    In label ["STRONG UP  ▲▲"; "UP  ▲"; "STRONG DOWN  ▼▼"; "DOWN  ▼"; "NEUTRAL  ──"]%string /\
    conf <= 99 /\
    (label = "NEUTRAL  ──"%string -> conf = 50) /\
    (contains "UP" label = true -> (threshold <? combined)%float = true) /\
    (contains "DOWN" label = true -> (combined <? - threshold)%float = true) /\
    Portfolio.is_directional label = false /\
    (forall self market_question up_price down_price now,
        let o := Portfolio.consider_entry self (Signal.make label conf) market_question
                                          up_price down_price now in
        Portfolio.returned o = false /\
        Portfolio.active_trade (Portfolio.self_after o) = Portfolio.active_trade self /\
        (Portfolio._signal_streak (Portfolio.self_after o) = Portfolio._signal_streak self \/
         Portfolio._signal_streak (Portfolio.self_after o) = Streak.empty)).
Proof.
  intros obi w t label color conf combined H.
  assert (Hd : Portfolio.is_directional label = false).
  { destruct (compute_signal_labels _ _ _ _ _ _ _ H)
      as [(_ & [-> | ->] & _) | [(_ & [-> | ->] & _) | (_ & -> & _)]];
      vm_compute; reflexivity. }
  split; [ | split; [ | split; [ | split; [ | split; [ | split; [ exact Hd | ] ] ] ] ] ].
  - destruct (compute_signal_labels _ _ _ _ _ _ _ H)
      as [(_ & [-> | ->] & _) | [(_ & [-> | ->] & _) | (_ & -> & _)]]; cbn; auto 6.
  - destruct (compute_signal_labels _ _ _ _ _ _ _ H)
      as [(_ & _ & _ & Hc) | [(_ & _ & _ & Hc) | (_ & _ & -> & _)]]; lia.
  - intros ->.
    destruct (compute_signal_labels _ _ _ _ _ _ _ H)
      as [(_ & [E | E] & _) | [(_ & [E | E] & _) | (_ & _ & Hc & _)]];
      try discriminate. exact Hc.
  - intros Hup.
    destruct (compute_signal_labels _ _ _ _ _ _ _ H)
      as [(_ & _ & Hc & _) | [(_ & [-> | ->] & _) | (_ & -> & _)]];
      [ exact Hc | | | ]; vm_compute in Hup; discriminate.
  - intros Hdown.
    destruct (compute_signal_labels _ _ _ _ _ _ _ H)
      as [(_ & [-> | ->] & _) | [(_ & _ & Hc & _) | (_ & -> & _)]];
      [ | | exact Hc | ]; vm_compute in Hdown; discriminate.
  - intros self mq up dn now.
    apply (non_directional_is_refused self (Signal.make label conf) mq up dn now Hd).
Qed.

Lemma computed_labels_are_not_directional_witness :
  Strategy.compute_signal 0.3 [0.2; 0.25]%float Strategy.OBI_THRESHOLD
  = Some ("UP  ▲"%string, Strategy.GREEN, 77, 0.27%float) /\
  Portfolio.returned
    (Portfolio.consider_entry (tick 70 (tick 70 (tick 70 fresh)))
       (Signal.make "UP  ▲" 77) "SOL up or down?" 0.40 0.60 "12:00:00") = false.
Proof.
  assert (E : Strategy.compute_signal 0.3 [0.2; 0.25]%float Strategy.OBI_THRESHOLD
              = Some ("UP  ▲"%string, Strategy.GREEN, 77, 0.27%float))
    by (vm_compute; reflexivity).
  split; [ exact E | ].
  destruct (computed_labels_are_not_directional _ _ _ _ _ _ _ E) as (_ & _ & _ & _ & _ & _ & K).
  exact (proj1 (K (tick 70 (tick 70 (tick 70 fresh))) "SOL up or down?"%string
                  0.40%float 0.60%float "12:00:00"%string)).
Defined.

(** * Resolution at the boundary *)

(** X19. When [force_winner] is given, the prices passed to [close_trade]
    play no part: any two calls with the same forced outcome end alike.
    Without it, a held side priced exactly 0.5 resolves as a WIN, and a
    held side whose price is NaN resolves as a LOSS, since no comparison with
    NaN holds. *)
Theorem resolution_boundary :
  forall self trade up_price down_price up_price' down_price' forced,
    Portfolio.active_trade self = Some trade ->
    Portfolio.close_trade self up_price down_price (Some forced)
    = Portfolio.close_trade self up_price' down_price' (Some forced) /\
    (held_side_price trade up_price down_price = 0.5%float ->
     option_map Trade.status
       (Portfolio.returned (Portfolio.close_trade self up_price down_price None))
     = Some "WIN"%string) /\
    (held_side_price trade up_price down_price = nan ->
     option_map Trade.status
       (Portfolio.returned (Portfolio.close_trade self up_price down_price None))
     = Some "LOSS"%string).
Proof.
  intros self trade up dn up' dn' forced Ha.
  split; [ | split ].
  - rewrite (close_trade_active self up dn (Some forced) trade Ha),
            (close_trade_active self up' dn' (Some forced) trade Ha). reflexivity.
  - intros E. rewrite (close_trade_active self up dn None trade Ha). rewrite E.
    reflexivity.
  - intros E. rewrite (close_trade_active self up dn None trade Ha). rewrite E.
    reflexivity.
Qed.

Lemma resolution_boundary_witness :
  option_map Trade.status
    (Portfolio.returned (Portfolio.close_trade holding 0.5 0.5 None)) = Some "WIN"%string /\
  option_map Trade.status
    (Portfolio.returned (Portfolio.close_trade holding nan 0.5 None)) = Some "LOSS"%string /\
  Portfolio.close_trade holding 0.1 0.9 (Some true)
  = Portfolio.close_trade holding 0.9 0.1 (Some true).
Proof.
  assert (Ha : Portfolio.active_trade holding
               = Some (Trade.make 1 "SOL up or down?" "UP" 0.40 5.0 2.0 "12:00:00"
                                  None None "OPEN")) by (vm_compute; reflexivity).
  split; [ | split ].
  - apply (proj1 (proj2 (resolution_boundary holding _ 0.5 0.5 0.5 0.5 true Ha))).
    reflexivity.
  - apply (proj2 (proj2 (resolution_boundary holding _ nan 0.5 0.5 0.5 true Ha))).
    reflexivity.
  - exact (proj1 (resolution_boundary holding _ 0.1 0.9 0.9 0.1 true Ha)).
Defined.
